(** * ALUCALU: the storefront-and-invoicing application [app.py]

    A shallow embedding of the Flask application and the properties of its
    invoice calculator, admin listing and labor-cost row.

    - Python [float] is IEEE-754 binary64: modelled with the Standard
      Library's [spec_float] at precision 53 and maximal exponent 1024.
    - Python [int] is unbounded: modelled with [Z].
    - The SQLite database is a record of tables, each table the list of its
      rows in rowid order.
    - A request handler is a computation in a state-and-exception monad over
      the database, the unit of work of the ORM session and the Flask
      session (flashed messages, logged-in user). *)

From Stdlib Require Import ZArith String Ascii List Bool Lia.
From Stdlib Require Import Floats.SpecFloat.
From stdpp Require Import base option list strings gmap sorting.

Local Open Scope string_scope.
Local Open Scope Z_scope.
Local Open Scope list_scope.

(** ** Python floats *)

Module Float.

Definition float : Type := spec_float.

Definition prec : Z := 53.
Definition emax : Z := 1024.

(** [x * y] on two Python floats. *)
Definition mul (x y : float) : float := SFmul prec emax x y.

(** [x == y] on two Python floats: false as soon as one side is NaN. *)
Definition eqb (x y : float) : bool := SFeqb x y.

(** The float nearest to an integer (ties to even); infinite when the
    integer is beyond the largest finite float. *)
Definition of_Z (n : Z) : float := binary_normalize prec emax n 0 false.

(** The float nearest to [n / d] for integers [n] and [d > 0]. *)
Definition of_ratio (n : Z) (d : positive) : float :=
  match n with
  | Z0 => S754_zero false
  | Zpos m => SFdiv prec emax (S754_finite false m 0) (S754_finite false d 0)
  | Zneg m => SFdiv prec emax (S754_finite true m 0) (S754_finite false d 0)
  end.

Definition zero : float := S754_zero false.
Definition nan : float := S754_nan.


Definition is_nan (x : float) : bool :=
  match x with S754_nan => true | _ => false end.

Definition is_inf (x : float) : bool :=
  match x with S754_infinity _ => true | _ => false end.

(** [math.isfinite]: neither infinite nor NaN. *)
Definition is_finite (x : float) : bool :=
  match x with
  | S754_zero _ | S754_finite _ _ _ => true
  | S754_infinity _ | S754_nan => false
  end.

(** One of the two zeros. *)
Definition is_zero (x : float) : bool :=
  match x with S754_zero _ => true | _ => false end.


End Float.

Abbreviation float := Float.float.
Infix "*f" := Float.mul (at level 40, left associativity).

(** ** Python exceptions and results *)

Inductive exn_class : Type :=
  | TypeError
  | ValueError
  | OverflowError
  | AttributeError
  | IntegrityError
  | OperationalError
  | NotFound.

(** An exception object; [str(e)] is its message. *)
Record exn : Type := Exception { exn_type : exn_class; exn_msg : string }.

Definition str (e : exn) : string := exn_msg e.

Inductive result (A : Type) : Type :=
  | Ok (a : A)
  | Raise (e : exn).
Arguments Ok {A} a.
Arguments Raise {A} e.

Definition result_bind {A B} (r : result A) (k : A -> result B) : result B :=
  match r with
  | Ok a => k a
  | Raise e => Raise e
  end.

(** [int -> float] conversion as done by [float * int]: an [OverflowError]
    when the integer is out of the range of a float. *)
Definition py_float_of_int (n : Z) : result float :=
  let x := Float.of_Z n in
  if Float.is_inf x
  then Raise (Exception OverflowError "int too large to convert to float")
  else Ok x.

(** [x * n] for a float [x] and an int [n]. *)
Definition float_mul_int (x : float) (n : Z) : result float :=
  result_bind (py_float_of_int n) (fun y => Ok (x *f y)).

(** ** Library functions the application calls

    [int(...)] and [float(...)] applied to the value of a form field
    ([None] when the field is absent), and werkzeug's password hashing. *)

Class Builtins : Type := {
  py_int : option string -> result Z;
  py_float : option string -> result float;
  generate_password_hash : string -> string;
  check_password_hash : string -> option string -> result bool
}.

(** *** A reference implementation of the library functions

    [int] and [float] on ASCII decimal literals: surrounding whitespace,
    an optional sign, decimal digits, and for floats an optional fraction,
    an optional exponent, and the words [inf], [infinity] and [nan].
    CPython accepts more (underscores between digits, non-ASCII digits);
    the theorems below hold for every [Builtins], this instance serves the
    concrete scenarios. *)

Module CPython.

Definition is_space (c : ascii) : bool :=
  let n := Z.of_nat (nat_of_ascii c) in
  ((n =? 32) || ((9 <=? n) && (n <=? 13)))%Z.

Fixpoint lstrip (s : list ascii) : list ascii :=
  match s with
  | c :: s' => if is_space c then lstrip s' else s
  | [] => []
  end.

Definition strip (s : list ascii) : list ascii :=
  rev (lstrip (rev (lstrip s))).

Definition digit (c : ascii) : option Z :=
  let n := Z.of_nat (nat_of_ascii c) in
  if ((48 <=? n) && (n <=? 57))%Z then Some (n - 48) else None.

(** The longest prefix of decimal digits, and what follows it. *)
Fixpoint take_digits (s : list ascii) : list Z * list ascii :=
  match s with
  | c :: s' =>
      match digit c with
      | Some d => let '(ds, rest) := take_digits s' in (d :: ds, rest)
      | None => ([], s)
      end
  | [] => ([], [])
  end.

Definition Z_of_digits (ds : list Z) : Z :=
  fold_left (fun acc d => 10 * acc + d) ds 0.

Definition take_sign (s : list ascii) : bool * list ascii :=
  match s with
  | "-"%char :: s' => (true, s')
  | "+"%char :: s' => (false, s')
  | _ => (false, s)
  end.

Definition lower (c : ascii) : ascii :=
  let n := nat_of_ascii c in
  if ((65 <=? n) && (n <=? 90))%nat then ascii_of_nat (n + 32) else c.

Definition quoted (s : string) : string := "'" +:+ s +:+ "'".

Definition int_of_str (o : option string) : result Z :=
  match o with
  | None =>
      Raise (Exception TypeError
        "int() argument must be a string, a bytes-like object or a real number, not 'NoneType'")
  | Some s =>
      let '(neg, r) := take_sign (strip (list_ascii_of_string s)) in
      match take_digits r with
      | ((_ :: _) as ds, []) =>
          Ok (if neg : bool then - Z_of_digits ds else Z_of_digits ds)
      | _ =>
          Raise (Exception ValueError
            ("invalid literal for int() with base 10: " +:+ quoted s))
      end
  end.

(** The exponent part of a float literal: empty, or [e] or [E], an
    optional sign and at least one digit. *)
Definition take_exponent (s : list ascii) : option Z :=
  match s with
  | [] => Some 0
  | c :: s' =>
      if Ascii.eqb (lower c) "e"%char then
        let '(neg, r) := take_sign s' in
        match take_digits r with
        | ((_ :: _) as ds, []) =>
            Some (if neg : bool then - Z_of_digits ds else Z_of_digits ds)
        | _ => None
        end
      else None
  end.

(** The float nearest to [(-1)^neg * m * 10^e]. *)
Definition decimal_to_float (neg : bool) (m e : Z) : float :=
  if (m =? 0)%Z then S754_zero neg
  else
    let sm := if neg then - m else m in
    if (0 <=? e)%Z then Float.of_Z (sm * 10 ^ e)
    else Float.of_ratio sm (Z.to_pos (10 ^ (- e))).

Definition float_of_str (o : option string) : result float :=
  match o with
  | None =>
      Raise (Exception TypeError
        "float() argument must be a string or a real number, not 'NoneType'")
  | Some s =>
      let bad :=
        Raise (Exception ValueError
          ("could not convert string to float: " +:+ quoted s)) in
      let '(neg, r) := take_sign (strip (list_ascii_of_string s)) in
      let word := string_of_list_ascii (map lower r) in
      if String.eqb word "inf" || String.eqb word "infinity"
      then Ok (S754_infinity neg)
      else if String.eqb word "nan" then Ok S754_nan
      else
        let '(ip, r1) := take_digits r in
        let '(fp, r2) :=
          match r1 with
          | "."%char :: r' => take_digits r'
          | _ => ([], r1)
          end in
        match (ip ++ fp)%list, take_exponent r2 with
        | (_ :: _) as ds, Some ex =>
            Ok (decimal_to_float neg (Z_of_digits ds)
                  (ex - Z.of_nat (length fp)))
        | _, _ => bad
        end
  end.

(** Stand-ins for werkzeug's salted hashing: the hash checks against the
    password it was made from, and checking [None] fails as
    [None.encode] does. *)
Definition hash (password : string) : string := "scrypt$" +:+ password.

Definition check (pwhash : string) (password : option string) : result bool :=
  match password with
  | None =>
      Raise (Exception AttributeError
        "'NoneType' object has no attribute 'encode'")
  | Some p => Ok (String.eqb pwhash (hash p))
  end.

End CPython.

Definition cpython : Builtins := {|
  py_int := CPython.int_of_str;
  py_float := CPython.float_of_str;
  generate_password_hash := CPython.hash;
  check_password_hash := CPython.check
|}.

(** ** Models

    Each model has the type [t] of its rows and the type [Obj.t] of an
    instance that was constructed but not yet flushed: an attribute the
    constructor was given [None] for (or was not given) is [None] there.
    Columns declared [nullable=False] are checked when the row is
    inserted. *)

Definition datetime : Type := Z.

(** The primary key SQLite gives a new row: one more than the largest
    rowid of the table, [1] in an empty table. *)
Definition next_id (ids : list Z) : Z := 1 + foldr Z.max 0 ids.

Definition not_null {A} (column : string) (v : option A) : result A :=
  match v with
  | Some a => Ok a
  | None =>
      Raise (Exception IntegrityError ("NOT NULL constraint failed: " +:+ column))
  end.

(** A float bound to a column: SQLite has no NaN and binds it as NULL. In a
    nullable column the row then holds NULL, which reads back as [None]; a
    column declared [nullable=False] refuses it. *)
Definition nullable_float (x : float) : option float :=
  if Float.is_nan x then None else Some x.

Definition not_null_float (column : string) (x : float) : result float :=
  not_null column (nullable_float x).

Notation "'let?' x := r 'in' k" := (result_bind r (fun x => k))
  (at level 10, x pattern, r at level 100, k at level 200, only parsing).

Module Admin.
Module Obj.
Record t : Type := { username : string; password_hash : option string }.
End Obj.

Record t : Type := { id : Z; username : string; password_hash : string }.

Definition set_password `{Builtins} (self : Obj.t) (password : string) : Obj.t :=
  {| Obj.username := Obj.username self;
     Obj.password_hash := Some (generate_password_hash password) |}.

Definition check_password `{Builtins} (self : t) (password : option string)
  : result bool :=
  check_password_hash (password_hash self) password.

Definition get (rows : list t) (i : Z) : option t :=
  find (fun r => id r =? i)%Z rows.

(** [filter_by(username=...).first()]; no row has a NULL username. *)
Definition first_by_username (rows : list t) (u : option string) : option t :=
  match u with
  | Some u => find (fun r => String.eqb (username r) u) rows
  | None => None
  end.

(** [username] is declared [unique=True]. *)
Definition insert (rows : list t) (o : Obj.t) : result (list t * Z) :=
  let? pw := not_null "admin.password_hash" (Obj.password_hash o) in
  if existsb (fun r => String.eqb (username r) (Obj.username o)) rows
  then Raise (Exception IntegrityError "UNIQUE constraint failed: admin.username")
  else
    let i := next_id (map id rows) in
    Ok ((rows ++ [{| id := i; username := Obj.username o; password_hash := pw |}])%list, i).
End Admin.

Module Category.
Module Obj.
Record t : Type := { name : string }.
End Obj.

Record t : Type := { id : Z; name : string }.

Definition insert (rows : list t) (o : Obj.t) : result (list t * Z) :=
  let i := next_id (map id rows) in
  Ok ((rows ++ [{| id := i; name := Obj.name o |}])%list, i).
End Category.

Module Product.
Module Obj.
Record t : Type := {
  name : option string;
  description : option string;
  image_url : option string;
  price_per_sqft : float;
  category_id : Z
}.
End Obj.

Record t : Type := {
  id : Z;
  name : string;
  description : option string;
  image_url : option string;
  price_per_sqft : float;
  category_id : Z
}.

(** [Product.query.get(i)] *)
Definition get (rows : list t) (i : Z) : option t :=
  find (fun r => id r =? i)%Z rows.

Definition insert (rows : list t) (o : Obj.t) : result (list t * Z) :=
  let? n := not_null "product.name" (Obj.name o) in
  let? price := not_null_float "product.price_per_sqft" (Obj.price_per_sqft o) in
  let i := next_id (map id rows) in
  Ok ((rows ++ [{| id := i; name := n;
                   description := Obj.description o;
                   image_url := Obj.image_url o;
                   price_per_sqft := price;
                   category_id := Obj.category_id o |}])%list, i).
End Product.

Module LaborCost.
Module Obj.
Record t : Type := { rate_per_sqft : float }.
End Obj.

Record t : Type := { id : Z; rate_per_sqft : option float }.

(** [LaborCost.query.first()] *)
Definition first (rows : list t) : option t := head rows.

Definition insert (rows : list t) (o : Obj.t) : result (list t * Z) :=
  let i := next_id (map id rows) in
  Ok ((rows ++ [{| id := i;
                   rate_per_sqft := nullable_float (Obj.rate_per_sqft o) |}])%list, i).

(** The UPDATE flushed for [labor.rate_per_sqft = rate] on the row [i]. *)
Definition set_rate (rows : list t) (i : Z) (rate : float) : list t :=
  map (fun r => if (id r =? i)%Z
                then {| id := id r; rate_per_sqft := nullable_float rate |}
                else r) rows.
End LaborCost.

Module Invoice.
Module Obj.
Record t : Type := {
  customer_name : option string;
  customer_phone : option string;
  customer_address : option string;
  product_id : Z;
  product_name : string;
  height_ft : float;
  width_ft : float;
  quantity : Z;
  sqft_price_at_booking : float;
  total_amount : float
}.
End Obj.

Record t : Type := {
  id : Z;
  customer_name : string;
  customer_phone : string;
  customer_address : string;
  product_id : Z;
  product_name : string;
  height_ft : float;
  width_ft : float;
  quantity : Z;
  sqft_price_at_booking : float;
  total_amount : float;
  created_at : datetime
}.

(** [Invoice.query.get(i)] *)
Definition get (rows : list t) (i : Z) : option t :=
  find (fun r => id r =? i)%Z rows.

(** [created_at] takes its default, [datetime.utcnow()], at insertion. *)
Definition insert (utcnow : datetime) (rows : list t) (o : Obj.t)
  : result (list t * Z) :=
  let? cn := not_null "invoice.customer_name" (Obj.customer_name o) in
  let? cp := not_null "invoice.customer_phone" (Obj.customer_phone o) in
  let? ca := not_null "invoice.customer_address" (Obj.customer_address o) in
  let? height := not_null_float "invoice.height_ft" (Obj.height_ft o) in
  let? width := not_null_float "invoice.width_ft" (Obj.width_ft o) in
  let? price :=
    not_null_float "invoice.sqft_price_at_booking" (Obj.sqft_price_at_booking o) in
  let? total := not_null_float "invoice.total_amount" (Obj.total_amount o) in
  let i := next_id (map id rows) in
  Ok ((rows ++ [{| id := i;
                   customer_name := cn;
                   customer_phone := cp;
                   customer_address := ca;
                   product_id := Obj.product_id o;
                   product_name := Obj.product_name o;
                   height_ft := height;
                   width_ft := width;
                   quantity := Obj.quantity o;
                   sqft_price_at_booking := price;
                   total_amount := total;
                   created_at := utcnow |}])%list, i).

(** [created_at] descending, the order of the admin listing. *)
Definition newer_first (a b : t) : Prop := (created_at b <= created_at a)%Z.

#[export] Instance newer_first_dec (a b : t) : Decision (newer_first a b).
Proof. unfold newer_first. apply _. Defined.

(** [Invoice.query.order_by(Invoice.created_at.desc()).all()] *)
Definition order_by_created_at_desc (rows : list t) : list t :=
  merge_sort newer_first rows.
End Invoice.

(** ** The database *)

Record Database : Type := {
  admins : list Admin.t;
  categories : list Category.t;
  products : list Product.t;
  labor_costs : list LaborCost.t;
  invoices : list Invoice.t
}.

Definition empty_database : Database :=
  {| admins := []; categories := []; products := [];
     labor_costs := []; invoices := [] |}.

(** What the unit of work holds until the commit: instances handed to
    [db.session.add], and the attribute assignment on a loaded row. *)
Inductive pending : Type :=
  | AddAdmin (o : Admin.Obj.t)
  | AddCategory (o : Category.Obj.t)
  | AddProduct (o : Product.Obj.t)
  | AddLaborCost (o : LaborCost.Obj.t)
  | AddInvoice (o : Invoice.Obj.t)
  | SetLaborRate (labor_id : Z) (rate : float).

(** One statement of the flush; an INSERT yields the new primary key. *)
Definition flush_one (utcnow : datetime) (p : pending) (d : Database)
  : result (Database * list Z) :=
  match p with
  | AddAdmin o =>
      let? (rows, i) := Admin.insert (admins d) o in
      Ok ({| admins := rows; categories := categories d; products := products d;
             labor_costs := labor_costs d; invoices := invoices d |}, [i])
  | AddCategory o =>
      let? (rows, i) := Category.insert (categories d) o in
      Ok ({| admins := admins d; categories := rows; products := products d;
             labor_costs := labor_costs d; invoices := invoices d |}, [i])
  | AddProduct o =>
      let? (rows, i) := Product.insert (products d) o in
      Ok ({| admins := admins d; categories := categories d; products := rows;
             labor_costs := labor_costs d; invoices := invoices d |}, [i])
  | AddLaborCost o =>
      let? (rows, i) := LaborCost.insert (labor_costs d) o in
      Ok ({| admins := admins d; categories := categories d; products := products d;
             labor_costs := rows; invoices := invoices d |}, [i])
  | AddInvoice o =>
      let? (rows, i) := Invoice.insert utcnow (invoices d) o in
      Ok ({| admins := admins d; categories := categories d; products := products d;
             labor_costs := labor_costs d; invoices := rows |}, [i])
  | SetLaborRate i rate =>
      Ok ({| admins := admins d; categories := categories d; products := products d;
             labor_costs := LaborCost.set_rate (labor_costs d) i rate;
             invoices := invoices d |}, [])
  end.

(** The flush of a whole unit of work, in the order of the calls; the
    primary keys of the inserted rows come back in that order. *)
Fixpoint flush (utcnow : datetime) (ps : list pending) (d : Database)
  : result (Database * list Z) :=
  match ps with
  | [] => Ok (d, [])
  | p :: ps' =>
      let? (d1, ids1) := flush_one utcnow p d in
      let? (d2, ids2) := flush utcnow ps' d1 in
      Ok (d2, (ids1 ++ ids2)%list)
  end.

(** ** Requests, responses and the handler monad *)

Inductive http_method : Type := GET | POST.

(** What the client sends. [request.form.get(k)] is [form request !! k]. *)
Record Request : Type := {
  method : http_method;
  form : gmap string string
}.

(** What a handler meets outside the program while it runs: the reading of
    the clock, whether the storage engine answers the queries of the
    request, whether it carries out the commit, and whether, after a
    commit, it answers the reload of a committed instance. The engine may
    refuse for any reason the models do not declare (a locked or full
    database, an integer beyond 64 bits); the constraints the models do
    declare, [nullable=False] and [unique=True], are checked by the flush,
    a NaN counting as NULL. *)
Record Env : Type := {
  utcnow : datetime;
  query_ok : bool;
  commit_ok : bool;
  refresh_ok : bool
}.

(** [url_for(endpoint, ...)] *)
Inductive url : Type :=
  | url_admin_dashboard
  | url_admin_login
  | url_view_invoice (invoice_id : Z).

Inductive Response : Type :=
  | redirect (location : url)
  | render_index (categories : list Category.t) (products : list Product.t)
  | render_product (product : Product.t) (labor_rate : option float)
  | render_login
  | render_dashboard (categories : list Category.t) (products : list Product.t)
      (labor_cost : option LaborCost.t) (invoices : list Invoice.t)
  | render_invoice_view (invoice : Invoice.t) (now : datetime).

(** The state a handler works on: the database, the unit of work of
    [db.session], and the Flask session (flashed messages, user id). *)
Record State : Type := {
  db : Database;
  db_session : list pending;
  flashes : list string;
  user_id : option Z
}.

Definition M (A : Type) : Type := State -> result A * State.

Definition ret {A} (a : A) : M A := fun st => (Ok a, st).

Definition bind {A B} (m : M A) (k : A -> M B) : M B :=
  fun st =>
    match m st with
    | (Ok a, st') => k a st'
    | (Raise e, st') => (Raise e, st')
    end.

Definition lift {A} (r : result A) : M A := fun st => (r, st).

Notation "'let*' x := m 'in' k" := (bind m (fun x => k))
  (at level 10, x pattern, m at level 100, k at level 200, only parsing).
Notation "m ;;; k" := (bind m (fun _ => k))
  (at level 100, k at level 200, right associativity, only parsing).

(** [try: body except Exception as e: handler(e)]: what the body did to the
    state before it raised stays done. *)
Definition try_except {A} (body : M A) (handler : exn -> M A) : M A :=
  fun st =>
    match body st with
    | (Ok a, st') => (Ok a, st')
    | (Raise e, st') => handler e st'
    end.

(** A query reads the committed rows, or raises when the engine does not
    answer. *)
Definition query {A} (env : Env) (q : Database -> A) : M A :=
  fun st =>
    if query_ok env then (Ok (q (db st)), st)
    else (Raise (Exception OperationalError "unable to open database file"), st).

(** [db.session.add(obj)], and an assignment to a column of a loaded row *)
Definition db_session_add (p : pending) : M unit :=
  fun st =>
    (Ok tt, {| db := db st; db_session := (db_session st ++ [p])%list;
               flashes := flashes st; user_id := user_id st |}).

(** [db.session.commit()]: all of the unit of work or nothing of it. It
    hands back the primary keys given to the added instances, and leaves
    every instance of the session expired. *)
Definition db_session_commit (env : Env) : M (list Z) :=
  fun st =>
    let rolled_back :=
      {| db := db st; db_session := []; flashes := flashes st;
         user_id := user_id st |} in
    if commit_ok env then
      match flush (utcnow env) (db_session st) (db st) with
      | Ok (d, ids) =>
          (Ok ids, {| db := d; db_session := []; flashes := flashes st;
                      user_id := user_id st |})
      | Raise e => (Raise e, rolled_back)
      end
    else (Raise (Exception OperationalError "database is locked"), rolled_back).

(** An attribute of an instance read after the commit, as [invoice.id]
    is: the commit expired the instance ([expire_on_commit] is on by
    default), so the read loads the row again in a new transaction, and
    raises when the engine does not answer. What was committed stays
    committed. *)
Definition refresh {A} (env : Env) (attribute : A) : M A :=
  fun st =>
    if refresh_ok env then (Ok attribute, st)
    else (Raise (Exception OperationalError "unable to open database file"), st).

Definition flash (message : string) : M unit :=
  fun st =>
    (Ok tt, {| db := db st; db_session := db_session st;
               flashes := (flashes st ++ [message])%list; user_id := user_id st |}).

(** [current_user]: the user id of the session, if any, looked up among
    the admins by [load_user]. *)
Definition load_user (env : Env) (user_id : Z) : M (option Admin.t) :=
  query env (fun d => Admin.get (admins d) user_id).

Definition current_user (env : Env) : M (option Admin.t) :=
  fun st =>
    match user_id st with
    | Some i => load_user env i st
    | None => (Ok None, st)
    end.

Definition current_user_is_authenticated (env : Env) : M bool :=
  bind (current_user env) (fun user => ret (bool_decide (is_Some user))).

Definition login_user (admin : Admin.t) : M unit :=
  fun st =>
    (Ok tt, {| db := db st; db_session := db_session st;
               flashes := flashes st; user_id := Some (Admin.id admin) |}).

Definition logout_user : M unit :=
  fun st =>
    (Ok tt, {| db := db st; db_session := db_session st;
               flashes := flashes st; user_id := None |}).

(** [@login_required]: an anonymous client is sent to [login_view]. The
    user is looked up before the view is entered, so a lookup the engine
    does not answer raises outside any [try] of the view. Flask-Login adds
    the requested path to the redirect as the query string [next]; the
    locations of [url] carry no query string, and that argument is left
    out. *)
Definition login_required (env : Env) (view : M Response) : M Response :=
  let* authenticated := current_user_is_authenticated env in
  if authenticated : bool then view
  else flash "Please log in to access this page." ;;;
       ret (redirect url_admin_login).

(** ** Database initialization and CLI commands *)

Section App.
Context `{Builtins}.

Definition init_database (env : Env) : M unit :=
  let* existing := query env (fun d => Admin.first_by_username (admins d) (Some "admin")) in
  match existing with
  | None =>
      let admin := {| Admin.Obj.username := "admin"; Admin.Obj.password_hash := None |} in
      let admin := Admin.set_password admin "admin123" in
      db_session_add (AddAdmin admin) ;;;
      let* labor := query env (fun d => LaborCost.first (labor_costs d)) in
      match labor with
      | None =>
          db_session_add
            (AddLaborCost {| LaborCost.Obj.rate_per_sqft := Float.of_Z 50 |})
      | Some _ => ret tt
      end ;;;
      let* _ := db_session_commit env in
      ret tt
  | Some _ => ret tt
  end.

(** [flask create-admin] *)
Definition create_admin (env : Env) : M unit :=
  let* existing := query env (fun d => Admin.first_by_username (admins d) (Some "admin")) in
  match existing with
  | None =>
      let admin := {| Admin.Obj.username := "admin"; Admin.Obj.password_hash := None |} in
      let admin := Admin.set_password admin "admin123" in
      db_session_add (AddAdmin admin) ;;;
      let* labor := query env (fun d => LaborCost.first (labor_costs d)) in
      match labor with
      | None =>
          db_session_add
            (AddLaborCost {| LaborCost.Obj.rate_per_sqft := Float.of_Z 50 |})
      | Some _ => ret tt
      end ;;;
      let* _ := db_session_commit env in
      ret tt
  | Some _ => ret tt
  end.

(** [flask init-db]: [db.create_all()] creates missing tables and leaves
    the rows alone. *)
Definition init_db_command : M unit := ret tt.

(** The block under [if __name__ == '__main__'] *)
Definition main (env : Env) : M unit :=
  let* existing := query env (fun d => Admin.first_by_username (admins d) (Some "admin")) in
  match existing with
  | None =>
      let admin := {| Admin.Obj.username := "admin"; Admin.Obj.password_hash := None |} in
      let admin := Admin.set_password admin "admin123" in
      db_session_add (AddAdmin admin) ;;;
      let* labor := query env (fun d => LaborCost.first (labor_costs d)) in
      match labor with
      | None =>
          db_session_add
            (AddLaborCost {| LaborCost.Obj.rate_per_sqft := Float.of_Z 50 |})
      | Some _ => ret tt
      end ;;;
      let* _ := db_session_commit env in
      ret tt
  | Some _ => ret tt
  end.

(** ** Routes *)

(** [/] *)
Definition home (env : Env) : M Response :=
  let* categories := query env categories in
  let* products := query env products in
  ret (render_index categories products).

Definition get_or_404 {A} (row : option A) : M A :=
  match row with
  | Some r => ret r
  | None => lift (Raise (Exception NotFound "404 Not Found"))
  end.

(** [/product/<int:product_id>]; the rate handed to the template is the
    value of the column, [None] when the row holds NULL, and without a
    labor row the integer [0], rendered here as the float zero. *)
Definition product_detail (env : Env) (product_id : Z) : M Response :=
  let* product := bind (query env (fun d => Product.get (products d) product_id)) get_or_404 in
  let* labor_cost := query env (fun d => LaborCost.first (labor_costs d)) in
  let labor_rate :=
    match labor_cost with
    | Some l => LaborCost.rate_per_sqft l
    | None => Some Float.zero
    end in
  ret (render_product product labor_rate).

(** [/admin/login] *)
Definition admin_login (env : Env) (request : Request) : M Response :=
  let* authenticated := current_user_is_authenticated env in
  if authenticated : bool then ret (redirect url_admin_dashboard)
  else
    match method request with
    | POST =>
        let username := form request !! "username" in
        let password := form request !! "password" in
        let* admin := query env (fun d => Admin.first_by_username (admins d) username) in
        match admin with
        | Some admin =>
            let* ok := lift (Admin.check_password admin password) in
            if ok : bool then
              login_user admin ;;;
              ret (redirect url_admin_dashboard)
            else
              flash "Invalid username or password" ;;;
              ret render_login
        | None =>
            flash "Invalid username or password" ;;;
            ret render_login
        end
    | GET => ret render_login
    end.

(** [/admin/logout] *)
Definition admin_logout : M Response :=
  logout_user ;;;
  ret (redirect url_admin_login).

(** [/admin] *)
Definition admin_dashboard (env : Env) : M Response :=
  let* categories := query env categories in
  let* products := query env products in
  let* labor_cost := query env (fun d => LaborCost.first (labor_costs d)) in
  let* invoices := query env (fun d => Invoice.order_by_created_at_desc (invoices d)) in
  ret (render_dashboard categories products labor_cost invoices).

(** A string is true when it is there and not empty. *)
Definition truthy (s : option string) : option string :=
  match s with
  | Some "" => None
  | Some s => Some s
  | None => None
  end.

(** [/admin/category/add] *)
Definition add_category (env : Env) (request : Request) : M Response :=
  let name := form request !! "name" in
  match truthy name with
  | Some name =>
      db_session_add (AddCategory {| Category.Obj.name := name |}) ;;;
      let* _ := db_session_commit env in
      ret tt
  | None => ret tt
  end ;;;
  ret (redirect url_admin_dashboard).

(** [/admin/product/add] *)
Definition add_product (env : Env) (request : Request) : M Response :=
  let name := form request !! "name" in
  let* price := lift (py_float (form request !! "price")) in
  let* category_id := lift (py_int (form request !! "category_id")) in
  let description := form request !! "description" in
  let image_url := form request !! "image_url" in
  let product :=
    {| Product.Obj.name := name;
       Product.Obj.price_per_sqft := price;
       Product.Obj.category_id := category_id;
       Product.Obj.description := description;
       Product.Obj.image_url := image_url |} in
  db_session_add (AddProduct product) ;;;
  let* _ := db_session_commit env in
  ret (redirect url_admin_dashboard).

(** [/admin/labor/update] *)
Definition update_labor (env : Env) (request : Request) : M Response :=
  let* rate := lift (py_float (form request !! "rate")) in
  let* labor := query env (fun d => LaborCost.first (labor_costs d)) in
  match labor with
  | None =>
      db_session_add (AddLaborCost {| LaborCost.Obj.rate_per_sqft := rate |})
  | Some labor =>
      db_session_add (SetLaborRate (LaborCost.id labor) rate)
  end ;;;
  let* _ := db_session_commit env in
  ret (redirect url_admin_dashboard).

(** [/admin/invoice/create] *)
Definition create_invoice (env : Env) (request : Request) : M Response :=
  try_except
    (let* product_id := lift (py_int (form request !! "product_id")) in
     let customer_name := form request !! "customer_name" in
     let customer_phone := form request !! "customer_phone" in
     let customer_address := form request !! "customer_address" in
     let* height := lift (py_float (form request !! "height")) in
     let* width := lift (py_float (form request !! "width")) in
     let* quantity := lift (py_int (form request !! "quantity")) in

     let* product := query env (fun d => Product.get (products d) product_id) in
     match product with
     | None =>
         flash "Product not found" ;;;
         ret (redirect url_admin_dashboard)
     | Some product =>
         (* Calculate total *)
         let sqft := height *f width in
         let* total :=
           lift (float_mul_int (sqft *f Product.price_per_sqft product) quantity) in

         let invoice :=
           {| Invoice.Obj.customer_name := customer_name;
              Invoice.Obj.customer_phone := customer_phone;
              Invoice.Obj.customer_address := customer_address;
              Invoice.Obj.product_id := product_id;
              Invoice.Obj.product_name := Product.name product;
              Invoice.Obj.height_ft := height;
              Invoice.Obj.width_ft := width;
              Invoice.Obj.quantity := quantity;
              Invoice.Obj.sqft_price_at_booking := Product.price_per_sqft product;
              Invoice.Obj.total_amount := total |} in
         db_session_add (AddInvoice invoice) ;;;
         let* ids := db_session_commit env in

         let* invoice_id := refresh env (hd 0 ids) in
         ret (redirect (url_view_invoice invoice_id))
     end)
    (fun e =>
       flash (str e) ;;;
       ret (redirect url_admin_dashboard)).

(** [/admin/invoice/<int:invoice_id>] *)
Definition view_invoice (env : Env) (invoice_id : Z) : M Response :=
  let* invoice := bind (query env (fun d => Invoice.get (invoices d) invoice_id)) get_or_404 in
  ret (render_invoice_view invoice (utcnow env)).

(** ** The application as a transition system *)

Inductive route : Type :=
  | route_home
  | route_product_detail (product_id : Z)
  | route_admin_login
  | route_admin_logout
  | route_admin_dashboard
  | route_add_category
  | route_add_product
  | route_update_labor
  | route_create_invoice
  | route_view_invoice (invoice_id : Z).

(** The view function a URL is bound to, with its decorators. *)
Definition view_function (r : route) (env : Env) (request : Request) : M Response :=
  match r with
  | route_home => home env
  | route_product_detail product_id => product_detail env product_id
  | route_admin_login => admin_login env request
  | route_admin_logout => login_required env admin_logout
  | route_admin_dashboard => login_required env (admin_dashboard env)
  | route_add_category => login_required env (add_category env request)
  | route_add_product => login_required env (add_product env request)
  | route_update_labor => login_required env (update_labor env request)
  | route_create_invoice => login_required env (create_invoice env request)
  | route_view_invoice invoice_id => login_required env (view_invoice env invoice_id)
  end.

End App.

(** Modelled from the spec: the explicit admin edit of a Product, for which
    the source has no route. It replaces the price of the product [pid]. *)
Definition edit_product_price (pid : Z) (price : float) (d : Database) : Database :=
  {| admins := admins d;
     categories := categories d;
     products :=
       map (fun p =>
              if (Product.id p =? pid)%Z
              then {| Product.id := Product.id p;
                      Product.name := Product.name p;
                      Product.description := Product.description p;
                      Product.image_url := Product.image_url p;
                      Product.price_per_sqft := price;
                      Product.category_id := Product.category_id p |}
              else p) (products d);
     labor_costs := labor_costs d;
     invoices := invoices d |}.

(** What lasts from one request to the next: the database and the Flask
    session kept in the client's cookie. *)
Record World : Type := {
  database : Database;
  flashed : list string;
  logged_in : option Z
}.

(** A handler starts on an empty unit of work, and the session of the ORM
    is dropped when the application context ends, whether the handler
    returned or raised. *)
Definition begin_request (w : World) : State :=
  {| db := database w; db_session := [];
     flashes := flashed w; user_id := logged_in w |}.

Definition end_request (st : State) : World :=
  {| database := db st; flashed := flashes st; logged_in := user_id st |}.

Definition handle {A} (m : M A) (w : World) : result A * World :=
  let '(r, st) := m (begin_request w) in (r, end_request st).

Inductive operation : Type :=
  | Startup (env : Env)
  | CliCreateAdmin (env : Env)
  | CliInitDb
  | Main (env : Env)
  | Serve (r : route) (env : Env) (request : Request)
  | EditProductPrice (pid : Z) (price : float).

Definition step `{Builtins} (op : operation) (w : World) : World :=
  match op with
  | Startup env => snd (handle (init_database env) w)
  | CliCreateAdmin env => snd (handle (create_admin env) w)
  | CliInitDb => snd (handle init_db_command w)
  | Main env => snd (handle (main env) w)
  | Serve r env request => snd (handle (view_function r env request) w)
  | EditProductPrice pid price =>
      {| database := edit_product_price pid price (database w);
         flashed := flashed w; logged_in := logged_in w |}
  end.

Definition steps `{Builtins} (ops : list operation) (w : World) : World :=
  fold_left (fun w op => step op w) ops w.

(** The world before the application first starts. *)
Definition initial_world : World :=
  {| database := empty_database; flashed := []; logged_in := None |}.

(** * Properties *)

(** ** The vocabulary of the statements *)

(** The database with another table of invoices. *)
Definition with_invoices (d : Database) (rows : list Invoice.t) : Database :=
  {| admins := admins d; categories := categories d; products := products d;
     labor_costs := labor_costs d; invoices := rows |}.

(** The world with another table of labor costs. *)
Definition with_labor_costs (w : World) (rows : list LaborCost.t) : World :=
  {| database :=
       {| admins := admins (database w); categories := categories (database w);
          products := products (database w); labor_costs := rows;
          invoices := invoices (database w) |};
     flashed := flashed w; logged_in := logged_in w |}.

(** The labor-cost table of a world. *)
Definition labor_rows (w : World) : list LaborCost.t := labor_costs (database w).

(** The storage engine answers the queries and carries out the commit. *)
Definition available (env : Env) : Prop :=
  query_ok env = true /\ commit_ok env = true.

(** The row a successful run of [create_invoice] inserts. *)
Definition booked (d : Database) (env : Env) (cn cp ca : string)
    (p : Product.t) (h wd : float) (q : Z) (total : float) : Invoice.t :=
  {| Invoice.id := next_id (map Invoice.id (invoices d));
     Invoice.customer_name := cn;
     Invoice.customer_phone := cp;
     Invoice.customer_address := ca;
     Invoice.product_id := Product.id p;
     Invoice.product_name := Product.name p;
     Invoice.height_ft := h;
     Invoice.width_ft := wd;
     Invoice.quantity := q;
     Invoice.sqft_price_at_booking := Product.price_per_sqft p;
     Invoice.total_amount := total;
     Invoice.created_at := utcnow env |}.

(** The request was read in full: every numeric field parsed. *)
Record parsed `{Builtins} (request : Request) (pid : Z) (h wd : float) (q : Z) : Prop := {
  parsed_product_id : py_int (form request !! "product_id") = Ok pid;
  parsed_height : py_float (form request !! "height") = Ok h;
  parsed_width : py_float (form request !! "width") = Ok wd;
  parsed_quantity : py_int (form request !! "quantity") = Ok q
}.

(** The product id a request names, when it names one that exists. *)
Definition refers_to_product `{Builtins} (request : Request) (d : Database) : Prop :=
  exists pid p,
    py_int (form request !! "product_id") = Ok pid /\
    Product.get (products d) pid = Some p.

(** The way a run of [create_invoice] fails: one message flashed, back to
    the dashboard, the database as it was. *)
Definition failed (w : World) (out : result Response * World) : Prop :=
  exists message,
    out = (Ok (redirect url_admin_dashboard),
           {| database := database w;
              flashed := flashed w ++ [message];
              logged_in := logged_in w |}).

(** The environment in which the reload after the commit is answered, and
    that is otherwise the same. *)
Definition answering (env : Env) : Env :=
  {| utcnow := utcnow env; query_ok := query_ok env; commit_ok := commit_ok env;
     refresh_ok := true |}.

(** The way a run of [create_invoice] ends when the commit went through and
    the reload of the new row was not answered: what the run would have
    written is written, one message is flashed, and the redirect is to the
    dashboard and not to the page of the new invoice. *)
Definition written_unseen `{Builtins} (env : Env) (request : Request) (w : World)
    (out : result Response * World) : Prop :=
  refresh_ok env = false /\
  exists i w' message,
    handle (create_invoice (answering env) request) w
      = (Ok (redirect (url_view_invoice i)), w') /\
    out = (Ok (redirect url_admin_dashboard),
           {| database := database w';
              flashed := flashed w' ++ [message];
              logged_in := logged_in w' |}).

(** The way the handler reports a missing product: the message "Product not
    found", a redirect to the dashboard, and nothing written. *)
Definition product_not_found (w : World) (out : result Response * World) : Prop :=
  out = (Ok (redirect url_admin_dashboard),
         {| database := database w;
            flashed := flashed w ++ ["Product not found"];
            logged_in := logged_in w |}).

(** ** A concrete shop

    One product at 50.0 per square foot, a labor rate of 50.0, no invoice
    yet; the library functions are the reference ones. *)

Definition demo_product : Product.t :=
  {| Product.id := 1; Product.name := "Sliding window";
     Product.description := None; Product.image_url := None;
     Product.price_per_sqft := Float.of_Z 50; Product.category_id := 1 |}.

Definition demo_database : Database :=
  {| admins := [];
     categories := [{| Category.id := 1; Category.name := "Windows" |}];
     products := [demo_product];
     labor_costs :=
       [{| LaborCost.id := 1; LaborCost.rate_per_sqft := Some (Float.of_Z 50) |}];
     invoices := [] |}.

Definition demo_world : World :=
  {| database := demo_database; flashed := []; logged_in := None |}.

Definition demo_env : Env :=
  {| utcnow := 1762166400; query_ok := true; commit_ok := true;
     refresh_ok := true |}.




(** The form of the invoice page, filled in. *)
Definition demo_request (product_id height width quantity : string) : Request :=
  {| method := POST;
     form := list_to_map
       [("product_id", product_id);
        ("customer_name", "Asha");
        ("customer_phone", "555-0100");
        ("customer_address", "12 Mill Road");
        ("height", height);
        ("width", width);
        ("quantity", quantity)] |}.

(** ** Tactics *)

(** Unfold one run of [create_invoice]. *)
Ltac run_handler :=
  unfold handle, create_invoice, try_except, bind, lift, query, flash,
    db_session_add, db_session_commit, refresh, ret, begin_request, end_request,
    float_mul_int, result_bind; simpl.

(** Case analysis of a handler: unfold the monad and the flush, and split
    on what the handler itself tests, innermost scrutinee first. *)
Ltac unfold_app :=
  repeat progress unfold step, handle, view_function, login_required,
    init_database, create_admin, init_db_command, main,
    home, product_detail, admin_login, admin_logout, admin_dashboard,
    add_category, add_product, update_labor, create_invoice, view_invoice,
    get_or_404, try_except, bind, lift, query, flash,
    db_session_add, db_session_commit, refresh, ret,
    current_user_is_authenticated, current_user, load_user,
    login_user, logout_user, begin_request, end_request,
    float_mul_int, result_bind, Admin.set_password, Admin.check_password,
    flush_one, Admin.insert, Category.insert, Product.insert,
    LaborCost.insert, Invoice.insert, not_null, edit_product_price in *.

Ltac handler_cases :=
  repeat (unfold_app; simpl;
          match goal with
          | |- context [match ?x with _ => _ end] =>
              lazymatch x with
              | context [match _ with _ => _ end] => fail
              | _ => destruct x eqn:?
              end
          end);
  unfold_app; simpl.

(** ** Facts on floats *)

Module FloatFacts.

(** [x == 0] holds exactly for the two zeros. *)
Lemma eqb_zero x : Float.eqb x Float.zero = Float.is_zero x.
Proof. destruct x as [s|s| |s m e]; try destruct s; reflexivity. Qed.

(** [x == x] holds unless [x] is NaN. *)
Lemma eqb_refl x : Float.is_nan x = false -> Float.eqb x x = true.
Proof.
  unfold Float.eqb, SFeqb.
  destruct x as [s|s| |s m e]; simpl; try discriminate; intros _.
  - reflexivity.
  - destruct s; reflexivity.
  - rewrite Z.compare_refl.
    change (Pos.compare_cont Eq m m) with (Pos.compare m m).
    rewrite Pos.compare_refl. destruct s; reflexivity.
Qed.

(** Shifting right keeps a mantissa that is not negative so. *)
Lemma shr_1_nonneg mrs : (0 <= shr_m mrs)%Z -> (0 <= shr_m (shr_1 mrs))%Z.
Proof.
  destruct mrs as [m r s]. simpl.
  destruct m as [|[p|p|]|p]; simpl; lia.
Qed.

Lemma iter_shr_1_nonneg n : forall mrs,
  (0 <= shr_m mrs)%Z -> (0 <= shr_m (SpecFloat.iter_pos shr_1 n mrs))%Z.
Proof.
  induction n as [n IH|n IH|]; intros mrs Hm; simpl.
  - apply IH, IH, shr_1_nonneg, Hm.
  - apply IH, IH, Hm.
  - apply shr_1_nonneg, Hm.
Qed.

Lemma shr_fexp_nonneg m e l :
  (0 <= m)%Z -> (0 <= shr_m (fst (shr_fexp Float.prec Float.emax m e l)))%Z.
Proof.
  intros Hm. unfold shr_fexp, shr.
  assert (Hr : (0 <= shr_m (shr_record_of_loc m l))%Z).
  { destruct l as [|[]]; simpl; exact Hm. }
  destruct (_ - e)%Z; simpl; auto using iter_shr_1_nonneg.
Qed.

Lemma round_nearest_even_nonneg m l :
  (0 <= m)%Z -> (0 <= round_nearest_even m l)%Z.
Proof.
  intros Hm. unfold round_nearest_even.
  destruct l as [|[]]; try destruct (Z.even m); lia.
Qed.

(** Rounding a mantissa that is not negative never yields NaN. *)
Lemma binary_round_aux_not_nan sx mx ex lx :
  (0 <= mx)%Z ->
  Float.is_nan (binary_round_aux Float.prec Float.emax sx mx ex lx) = false.
Proof.
  intros Hm. unfold binary_round_aux.
  pose proof (shr_fexp_nonneg mx ex lx Hm) as H1.
  destruct (shr_fexp Float.prec Float.emax mx ex lx) as [mrs' e'].
  simpl in H1.
  pose proof (shr_fexp_nonneg _ e' loc_Exact
                (round_nearest_even_nonneg _ (loc_of_shr_record mrs') H1)) as H2.
  destruct (shr_fexp Float.prec Float.emax _ e' loc_Exact) as [mrs'' e''].
  simpl in H2.
  destruct (shr_m mrs'') as [|m|m]; [reflexivity| |lia].
  destruct (e'' <=? _)%Z; reflexivity.
Qed.

Lemma of_Z_not_nan n : Float.is_nan (Float.of_Z n) = false.
Proof.
  unfold Float.of_Z, binary_normalize, binary_round.
  destruct n as [|m|m]; [reflexivity| |];
    destruct (shl_align _ _ _) as [mz ez];
    apply binary_round_aux_not_nan; lia.
Qed.

(** An int that converts to a float converts to a finite one. *)
Lemma py_float_of_int_finite n x :
  py_float_of_int n = Ok x -> Float.is_finite x = true.
Proof.
  unfold py_float_of_int. pose proof (of_Z_not_nan n) as Hn.
  destruct (Float.of_Z n); simpl in *; intros Hx; try discriminate;
    injection Hx as <-; reflexivity.
Qed.

Lemma py_float_of_int_0 x : py_float_of_int 0 = Ok x -> x = Float.zero.
Proof. cbv. intros Hx. injection Hx as <-. reflexivity. Qed.

(** A finite product with a zero factor is a zero. *)
Lemma mul_zero_l x y :
  Float.is_zero x = true -> Float.is_finite (x *f y) = true -> Float.is_zero (x *f y) = true.
Proof. destruct x, y; simpl; congruence. Qed.

Lemma mul_finite_l x y : Float.is_finite (x *f y) = true -> Float.is_finite x = true.
Proof. destruct x, y; simpl; congruence. Qed.

Lemma mul_zero_finite x y :
  Float.is_zero x = true -> Float.is_finite y = true -> Float.is_zero (x *f y) = true.
Proof. destruct x, y; simpl; congruence. Qed.

Lemma mul_finite_zero x y :
  Float.is_finite x = true -> Float.is_zero y = true -> Float.is_zero (x *f y) = true.
Proof. destruct x, y; simpl; congruence. Qed.

(** NaN is absorbing: a product that is not NaN has no NaN factor. *)
Lemma mul_not_nan_l x y : Float.is_nan (x *f y) = false -> Float.is_nan x = false.
Proof. destruct x; try reflexivity. simpl. congruence. Qed.

Lemma mul_not_nan_r x y : Float.is_nan (x *f y) = false -> Float.is_nan y = false.
Proof. destruct y; try reflexivity. destruct x; simpl; congruence. Qed.

Lemma is_zero_not_nan x : Float.is_zero x = true -> Float.is_nan x = false.
Proof. destruct x; simpl; congruence. Qed.

End FloatFacts.

(** ** How a run of [create_invoice] ends *)

Section CreateInvoice.
Context `{Builtins}.

Lemma Product_get_id rows i p : Product.get rows i = Some p -> Product.id p = i.
Proof.
  unfold Product.get. intros Hf. apply find_some in Hf as [_ Hi]. lia.
Qed.

(** A run that ends on the page of an invoice read the whole request, found
    the product and appended exactly the row [booked]. *)
Lemma create_invoice_created env request w i w' :
  handle (create_invoice env request) w = (Ok (redirect (url_view_invoice i)), w') ->
  exists pid h wd q p qf cn cp ca,
    parsed request pid h wd q /\
    Product.get (products (database w)) pid = Some p /\
    py_float_of_int q = Ok qf /\
    form request !! "customer_name" = Some cn /\
    form request !! "customer_phone" = Some cp /\
    form request !! "customer_address" = Some ca /\
    (available env /\ refresh_ok env = true /\
     Float.is_nan (h *f wd *f Product.price_per_sqft p *f qf) = false) /\
    let row := booked (database w) env cn cp ca p h wd q
                 (h *f wd *f Product.price_per_sqft p *f qf) in
    i = Invoice.id row /\
    w' = {| database := with_invoices (database w) (invoices (database w) ++ [row]);
            flashed := flashed w; logged_in := logged_in w |}.
Proof.
  run_handler.
  destruct (py_int (form request !! "product_id")) as [pid|] eqn:Hpid; simpl; [|discriminate].
  destruct (py_float (form request !! "height")) as [h|] eqn:Hh; simpl; [|discriminate].
  destruct (py_float (form request !! "width")) as [wd|] eqn:Hw; simpl; [|discriminate].
  destruct (py_int (form request !! "quantity")) as [q|] eqn:Hq; simpl; [|discriminate].
  destruct (query_ok env) eqn:Hqok; simpl; [|discriminate].
  destruct (Product.get (products (database w)) pid) as [p|] eqn:Hp; simpl; [|discriminate].
  destruct (py_float_of_int q) as [qf|] eqn:Hqf; simpl; [|discriminate].
  destruct (commit_ok env) eqn:Hok; simpl; [|discriminate].
  unfold Invoice.insert, not_null, result_bind; simpl.
  destruct (form request !! "customer_name") as [cn|] eqn:Hcn; simpl; [|discriminate].
  destruct (form request !! "customer_phone") as [cp|] eqn:Hcp; simpl; [|discriminate].
  destruct (form request !! "customer_address") as [ca|] eqn:Hca; simpl; [|discriminate].
  unfold not_null_float, nullable_float, not_null; simpl.
  destruct (Float.is_nan h) eqn:Hnh; simpl; [discriminate|].
  destruct (Float.is_nan wd) eqn:Hnw; simpl; [discriminate|].
  destruct (Float.is_nan (Product.price_per_sqft p)) eqn:Hnp; simpl; [discriminate|].
  destruct (Float.is_nan (h *f wd *f Product.price_per_sqft p *f qf)) eqn:Hnt; simpl;
    [discriminate|].
  destruct (refresh_ok env) eqn:Hrok; simpl; [|discriminate].
  intros Heq. injection Heq as Hi Hw'.
  exists pid, h, wd, q, p, qf, cn, cp, ca.
  pose proof (Product_get_id _ _ _ Hp) as Hid.
  repeat split; try assumption; try reflexivity.
  - simpl. congruence.
  - subst w'. unfold booked, with_invoices. simpl. rewrite Hid. reflexivity.
Qed.

(** Conversely, a request read in full, for a product that exists, with
    the three customer fields, a quantity in the range of a float and a
    total that is not NaN, ends on the page of the new invoice when the
    storage engine is available and answers the reload. *)
Lemma create_invoice_creates env request w pid h wd q p qf cn cp ca :
  parsed request pid h wd q ->
  Product.get (products (database w)) pid = Some p ->
  py_float_of_int q = Ok qf ->
  form request !! "customer_name" = Some cn ->
  form request !! "customer_phone" = Some cp ->
  form request !! "customer_address" = Some ca ->
  available env ->
  refresh_ok env = true ->
  Float.is_nan (h *f wd *f Product.price_per_sqft p *f qf) = false ->
  let row := booked (database w) env cn cp ca p h wd q
               (h *f wd *f Product.price_per_sqft p *f qf) in
  handle (create_invoice env request) w =
    (Ok (redirect (url_view_invoice (Invoice.id row))),
     {| database := with_invoices (database w) (invoices (database w) ++ [row]);
        flashed := flashed w; logged_in := logged_in w |}).
Proof.
  intros [Hpid Hh Hw Hq] Hp Hqf Hcn Hcp Hca [Hqok Hok] Hrok Hnt.
  pose proof (Product_get_id _ _ _ Hp) as Hid.
  pose proof (FloatFacts.mul_not_nan_l _ _ Hnt) as Hnx.
  pose proof (FloatFacts.mul_not_nan_r _ _ Hnx) as Hnp.
  pose proof (FloatFacts.mul_not_nan_l _ _ Hnx) as Hna.
  pose proof (FloatFacts.mul_not_nan_l _ _ Hna) as Hnh.
  pose proof (FloatFacts.mul_not_nan_r _ _ Hna) as Hnw.
  run_handler. rewrite Hpid; simpl. rewrite Hh; simpl. rewrite Hw; simpl.
  rewrite Hq; simpl. rewrite Hqok; simpl. rewrite Hp; simpl.
  rewrite Hqf; simpl. rewrite Hok; simpl.
  unfold Invoice.insert, not_null, result_bind; simpl.
  rewrite Hcn, Hcp, Hca; simpl.
  unfold not_null_float, nullable_float, not_null; simpl.
  rewrite Hnh, Hnw, Hnp, Hnt; simpl. rewrite Hrok; simpl.
  unfold booked, with_invoices; simpl. rewrite Hid. reflexivity.
Qed.

(** The three ways a run of [create_invoice] ends. *)
Lemma create_invoice_outcome env request w :
  (exists i w', handle (create_invoice env request) w
                = (Ok (redirect (url_view_invoice i)), w'))
  \/ failed w (handle (create_invoice env request) w)
  \/ written_unseen env request w (handle (create_invoice env request) w).
Proof.
  unfold failed, written_unseen, answering. run_handler.
  destruct (py_int (form request !! "product_id")) as [pid|]; simpl; [|eauto].
  destruct (py_float (form request !! "height")) as [h|]; simpl; [|eauto].
  destruct (py_float (form request !! "width")) as [wd|]; simpl; [|eauto].
  destruct (py_int (form request !! "quantity")) as [q|]; simpl; [|eauto].
  destruct (query_ok env); simpl; [|eauto].
  destruct (Product.get (products (database w)) pid) as [p|]; simpl; [|eauto].
  destruct (py_float_of_int q) as [qf|]; simpl; [|eauto].
  destruct (commit_ok env); simpl; [|eauto].
  unfold Invoice.insert, not_null, result_bind; simpl.
  destruct (form request !! "customer_name"); simpl; [|eauto].
  destruct (form request !! "customer_phone"); simpl; [|eauto].
  destruct (form request !! "customer_address"); simpl; [|eauto].
  unfold not_null_float, nullable_float, not_null; simpl.
  destruct (Float.is_nan h); simpl; [eauto|].
  destruct (Float.is_nan wd); simpl; [eauto|].
  destruct (Float.is_nan (Product.price_per_sqft p)); simpl; [eauto|].
  destruct (Float.is_nan (h *f wd *f Product.price_per_sqft p *f qf)); simpl; [eauto|].
  destruct (refresh_ok env); simpl; [left; eauto|].
  right; right. split; [reflexivity|]. eexists _, _, _. split; reflexivity.
Qed.

(** A run whose commit went through and whose reload was not answered read
    the whole request and found the product, as a run that ends on the
    page of the invoice did. *)
Lemma create_invoice_written_unseen env request w :
  written_unseen env request w (handle (create_invoice env request) w) ->
  exists pid h wd q p qf cn cp ca,
    parsed request pid h wd q /\
    Product.get (products (database w)) pid = Some p /\
    py_float_of_int q = Ok qf /\
    form request !! "customer_name" = Some cn /\
    form request !! "customer_phone" = Some cp /\
    form request !! "customer_address" = Some ca /\
    (available env /\ refresh_ok env = false /\
     Float.is_nan (h *f wd *f Product.price_per_sqft p *f qf) = false) /\
    let row := booked (database w) env cn cp ca p h wd q
                 (h *f wd *f Product.price_per_sqft p *f qf) in
    database (snd (handle (create_invoice env request) w))
    = with_invoices (database w) (invoices (database w) ++ [row]).
Proof.
  intros (Hrok & i & w' & message & Hrun & Hout).
  apply create_invoice_created in Hrun
    as (pid & h & wd & q & p & qf & cn & cp & ca
        & Hparsed & Hp & Hqf & Hcn & Hcp & Hca & (Hav & _ & Hnt) & _ & Hw').
  exists pid, h, wd, q, p, qf, cn, cp, ca.
  split_and!; try assumption.
  simpl in Hw'. rewrite Hout, Hw'. reflexivity.
Qed.

(** A run that does not fail read the whole request, found the product and
    had its row committed. *)
Lemma create_invoice_failed_or_committed env request w :
  failed w (handle (create_invoice env request) w) \/
  exists pid h wd q p qf cn cp ca,
    parsed request pid h wd q /\
    Product.get (products (database w)) pid = Some p /\
    py_float_of_int q = Ok qf /\
    form request !! "customer_name" = Some cn /\
    form request !! "customer_phone" = Some cp /\
    form request !! "customer_address" = Some ca /\
    available env /\
    Float.is_nan (h *f wd *f Product.price_per_sqft p *f qf) = false.
Proof.
  destruct (create_invoice_outcome env request w)
    as [(i & w1 & Hrun)|[Hfail|Hunseen]]; [right|left; exact Hfail|right].
  - apply create_invoice_created in Hrun
      as (pid & h & wd & q & p & qf & cn & cp & ca
          & Hparsed & Hp & Hqf & Hcn & Hcp & Hca & (Hav & _ & Hnt) & _).
    exists pid, h, wd, q, p, qf, cn, cp, ca. auto 10.
  - apply create_invoice_written_unseen in Hunseen
      as (pid & h & wd & q & p & qf & cn & cp & ca
          & Hparsed & Hp & Hqf & Hcn & Hcp & Hca & (Hav & _ & Hnt) & _).
    exists pid, h, wd, q, p, qf, cn, cp, ca. auto 10.
Qed.


(** The branch [if not product]. *)
Lemma create_invoice_product_not_found env request w pid h wd q :
  parsed request pid h wd q ->
  query_ok env = true ->
  Product.get (products (database w)) pid = None ->
  handle (create_invoice env request) w =
    (Ok (redirect url_admin_dashboard),
     {| database := database w;
        flashed := flashed w ++ ["Product not found"];
        logged_in := logged_in w |}).
Proof.
  intros [Hpid Hh Hw Hq] Hqok Hp.
  run_handler. rewrite Hpid; simpl. rewrite Hh; simpl. rewrite Hw; simpl.
  rewrite Hq; simpl. rewrite Hqok; simpl. rewrite Hp; simpl. reflexivity.
Qed.

End CreateInvoice.

(** ** Lookups by primary key *)

Lemma find_app_Some {A} (f : A -> bool) (l1 l2 : list A) x :
  find f l1 = Some x -> find f (l1 ++ l2) = Some x.
Proof.
  induction l1 as [|a l1 IH]; simpl; [discriminate|].
  destruct (f a); auto.
Qed.

Lemma find_app_None {A} (f : A -> bool) (l1 l2 : list A) :
  find f l1 = None -> find f (l1 ++ l2) = find f l2.
Proof.
  induction l1 as [|a l1 IH]; simpl; [reflexivity|].
  destruct (f a); [discriminate|auto].
Qed.

(** The key of a new row is above every key of the table. *)
Lemma next_id_above ids i : In i ids -> i < next_id ids.
Proof.
  unfold next_id. induction ids as [|j ids IH]; simpl; [tauto|].
  intros [->|Hi]; [lia|]. specialize (IH Hi). lia.
Qed.

Lemma Invoice_get_fresh rows : Invoice.get rows (next_id (map Invoice.id rows)) = None.
Proof.
  unfold Invoice.get.
  destruct (find _ rows) as [r|] eqn:Hf; [|reflexivity].
  apply find_some in Hf as [Hin Hid].
  pose proof (next_id_above (map Invoice.id rows) (Invoice.id r)
                (in_map Invoice.id rows r Hin)).
  lia.
Qed.

(** [Invoice.query.get] finds the row that was just inserted. *)
Lemma Invoice_get_new rows row :
  Invoice.id row = next_id (map Invoice.id rows) ->
  Invoice.get (rows ++ [row]) (Invoice.id row) = Some row.
Proof.
  intros Hid. unfold Invoice.get.
  rewrite find_app_None.
  - simpl. rewrite Z.eqb_refl. reflexivity.
  - rewrite Hid. apply Invoice_get_fresh.
Qed.

(** Rows appended to the table do not hide the rows it had. *)
Lemma Invoice_get_app rows more i inv :
  Invoice.get rows i = Some inv -> Invoice.get (rows ++ more) i = Some inv.
Proof. apply find_app_Some. Qed.

Example price_literal : CPython.float_of_str (Some "50.0") = Ok (Float.of_Z 50).
Proof. vm_compute. reflexivity. Qed.

Example total_literal : CPython.float_of_str (Some "5000.0") = Ok (Float.of_Z 5000).
Proof. vm_compute. reflexivity. Qed.

(** ** The invoice total *)

(** C1: every successful invoice creation, for a product of price [p] and a
    request of height [h], width [w] and quantity [q], appends one invoice
    whose [total_amount] is [h * w * p * q] (the floats' product, with [q]
    converted to a float), which is also what [Invoice.query.get] returns
    for the new id, and [total_amount == h * w * p * q] holds in Python's
    sense unless the product is NaN. At price 50.0, height 10, width 5 and
    quantity 2 the total is 5000.0. *)
Theorem invoice_total_is_area_price_quantity :
  (forall (H : Builtins) env request w i w',
     handle (create_invoice env request) w
       = (Ok (redirect (url_view_invoice i)), w') ->
     exists pid h wd q p qf inv,
       parsed request pid h wd q /\
       Product.get (products (database w)) pid = Some p /\
       py_float_of_int q = Ok qf /\
       invoices (database w') = invoices (database w) ++ [inv] /\
       Invoice.get (invoices (database w')) i = Some inv /\
       Invoice.height_ft inv = h /\
       Invoice.width_ft inv = wd /\
       Invoice.quantity inv = q /\
       Invoice.sqft_price_at_booking inv = Product.price_per_sqft p /\
       Invoice.total_amount inv = h *f wd *f Product.price_per_sqft p *f qf /\
       (Float.is_nan (Invoice.total_amount inv) = false ->
        Float.eqb (Invoice.total_amount inv)
          (h *f wd *f Product.price_per_sqft p *f qf) = true))
  /\
  (exists w',
     handle (create_invoice (H := cpython) demo_env (demo_request "1" "10" "5" "2"))
       demo_world = (Ok (redirect (url_view_invoice 1)), w') /\
     map Invoice.total_amount (invoices (database w')) = [Float.of_Z 5000]).
Proof.
  split.
  - intros H env request w i w' Hrun.
    apply create_invoice_created in Hrun
      as (pid & h & wd & q & p & qf & cn & cp & ca
          & Hparsed & Hp & Hqf & _ & _ & _ & _ & Hi & Hw').
    simpl in Hi, Hw'. subst i w'.
    eexists pid, h, wd, q, p, qf, _. simpl.
    split_and!; try eassumption; try reflexivity.
    + apply (Invoice_get_new _ (booked (database w) env cn cp ca p h wd q _)).
      reflexivity.
    + simpl. intros Hnan. apply FloatFacts.eqb_refl, Hnan.
  - eexists. split; [vm_compute; reflexivity|]. vm_compute. reflexivity.
Qed.

Lemma invoice_total_demo :
  let out := handle (create_invoice (H := cpython) demo_env
                       (demo_request "1" "10" "5" "2")) demo_world in
  exists pid h wd q p qf inv,
    parsed (H := cpython) (demo_request "1" "10" "5" "2") pid h wd q /\
    Product.get (products demo_database) pid = Some p /\
    py_float_of_int q = Ok qf /\
    invoices (database (snd out)) = [inv] /\
    Invoice.total_amount inv = h *f wd *f Product.price_per_sqft p *f qf.
Proof.
  intros out.
  destruct (proj1 invoice_total_is_area_price_quantity cpython demo_env
              (demo_request "1" "10" "5" "2") demo_world 1 (snd out))
    as (pid & h & wd & q & p & qf & inv & H1 & H2 & H3 & H4 & _ & _ & _ & _ & _ & H5 & _).
  - vm_compute. reflexivity.
  - exists pid, h, wd, q, p, qf, inv. split_and!; assumption.
Defined.

(** ** The labor rate *)

(** C2, as stated, fails: with the stored labor rate at 50.0, the invoice for
    height 10, width 5 and quantity 2 of the product at 50.0 has the total
    5000.0, which is not area * price * labor rate = 125000.0. *)
Lemma total_is_not_area_price_labor_rate :
  exists w' inv labor rate,
    handle (create_invoice (H := cpython) demo_env (demo_request "1" "10" "5" "2"))
      demo_world = (Ok (redirect (url_view_invoice 1)), w') /\
    invoices (database w') = [inv] /\
    LaborCost.first (labor_costs (database demo_world)) = Some labor /\
    LaborCost.rate_per_sqft labor = Some rate /\
    Invoice.total_amount inv = Float.of_Z 5000 /\
    Invoice.height_ft inv *f Invoice.width_ft inv
      *f Invoice.sqft_price_at_booking inv *f rate
      = Float.of_Z 125000 /\
    Float.eqb (Invoice.total_amount inv)
      (Invoice.height_ft inv *f Invoice.width_ft inv
         *f Invoice.sqft_price_at_booking inv *f rate)
      = false.
Proof.
  eexists _, _, _, _. split; [vm_compute; reflexivity|].
  split; [vm_compute; reflexivity|].
  split; [vm_compute; reflexivity|].
  split; [vm_compute; reflexivity|].
  split; [vm_compute; reflexivity|].
  split; vm_compute; reflexivity.
Qed.

(** C2, amended: the total of every invoice created is the product of the
    area (height * width), the product's price and the quantity; the labor
    rate does not enter it: with any other rows in the labor-cost table the
    same request creates the same invoice. *)
Theorem total_ignores_labor_rate (H : Builtins) env request w i w' rows :
  handle (create_invoice env request) w
    = (Ok (redirect (url_view_invoice i)), w') ->
  exists pid h wd q p qf inv,
    parsed request pid h wd q /\
    Product.get (products (database w)) pid = Some p /\
    py_float_of_int q = Ok qf /\
    invoices (database w') = invoices (database w) ++ [inv] /\
    Invoice.total_amount inv
      = (Invoice.height_ft inv *f Invoice.width_ft inv)
          *f Product.price_per_sqft p *f qf /\
    exists w'',
      handle (create_invoice env request) (with_labor_costs w rows)
        = (Ok (redirect (url_view_invoice i)), w'') /\
      invoices (database w'') = invoices (database w) ++ [inv].
Proof.
  intros Hrun.
  apply create_invoice_created in Hrun
    as (pid & h & wd & q & p & qf & cn & cp & ca
        & Hparsed & Hp & Hqf & Hcn & Hcp & Hca & (Hok & Hrok & Hnt) & Hi & Hw').
  simpl in Hi, Hw'. subst i w'.
  eexists pid, h, wd, q, p, qf, _. simpl.
  split_and!; try eassumption; try reflexivity.
  eexists. split.
  - apply (create_invoice_creates env request (with_labor_costs w rows)
             pid h wd q p qf cn cp ca); assumption.
  - reflexivity.
Qed.

Lemma total_ignores_labor_rate_demo :
  let request := demo_request "1" "10" "5" "2" in
  let out := handle (create_invoice (H := cpython) demo_env request) demo_world in
  exists inv w'',
    invoices (database (snd out)) = [inv] /\
    handle (create_invoice (H := cpython) demo_env request)
      (with_labor_costs demo_world []) = (Ok (redirect (url_view_invoice 1)), w'') /\
    invoices (database w'') = [inv].
Proof.
  intros request out.
  destruct (total_ignores_labor_rate cpython demo_env request demo_world 1
              (snd out) [])
    as (pid & h & wd & q & p & qf & inv & _ & _ & _ & H4 & _ & w'' & H6 & H7).
  - vm_compute. reflexivity.
  - exists inv, w''. split_and!; assumption.
Defined.

(** ** What creating an invoice leaves alone *)

(** C6: creating an invoice never mutates a Product, nor any other row that
    was there: the tables of admins, categories, products and labor costs
    come out as they were, and the table of invoices either as it was or
    with one row appended. *)
Theorem create_invoice_writes_one_invoice_row (H : Builtins) env request w :
  let w' := snd (handle (create_invoice env request) w) in
  admins (database w') = admins (database w) /\
  categories (database w') = categories (database w) /\
  products (database w') = products (database w) /\
  labor_costs (database w') = labor_costs (database w) /\
  (invoices (database w') = invoices (database w) \/
   exists inv, invoices (database w') = invoices (database w) ++ [inv]).
Proof.
  destruct (create_invoice_outcome env request w)
    as [(i & w1 & Hrun)|[(msg & Hrun)|Hunseen]].
  - rewrite Hrun. simpl.
    apply create_invoice_created in Hrun
      as (pid & h & wd & q & p & qf & cn & cp & ca
          & _ & _ & _ & _ & _ & _ & _ & _ & Hw').
    simpl in Hw'. subst w1. simpl. split_and!; try reflexivity.
    right. eexists. reflexivity.
  - rewrite Hrun. simpl. split_and!; try reflexivity. left. reflexivity.
  - apply create_invoice_written_unseen in Hunseen
      as (pid & h & wd & q & p & qf & cn & cp & ca
          & _ & _ & _ & _ & _ & _ & _ & Hdb).
    simpl in Hdb. simpl. rewrite Hdb. simpl. split_and!; try reflexivity.
    right. eexists. reflexivity.
Qed.

(** ** Exceptions and the handler *)




(** A handler without [try] does let the exception out: [add_product] on a
    price that does not parse. *)
Example add_product_raises :
  fst (handle (add_product (H := cpython) demo_env
                 {| method := POST; form := {[ "price" := "cheap" ]} |}) demo_world)
  = Raise (Exception ValueError "could not convert string to float: 'cheap'").
Proof. vm_compute. reflexivity. Qed.

(** ** A product that does not exist *)

(** C3, as stated, fails: the request names the product 9999, which does not
    exist, and a height that is no number. The fields are parsed before the
    product is looked up, so what is reported is the [ValueError] of the
    height and not the missing product. *)
Lemma missing_product_reported_as_bad_height :
  let request := demo_request "9999" "tall" "5" "2" in
  ~ refers_to_product (H := cpython) request (database demo_world) /\
  ~ product_not_found demo_world
      (handle (create_invoice (H := cpython) demo_env request) demo_world) /\
  flashed (snd (handle (create_invoice (H := cpython) demo_env request) demo_world))
    = ["could not convert string to float: 'tall'"].
Proof.
  intros request. split_and!.
  - intros (pid & p & Hpid & Hp). vm_compute in Hpid. injection Hpid as <-.
    vm_compute in Hp. discriminate.
  - unfold product_not_found. vm_compute. discriminate.
  - vm_compute. reflexivity.
Qed.

(** C3, amended: for every request whose product_id does not refer to an
    existing Product, invoice creation fails (one message flashed, redirect
    to the dashboard) and performs no write; when the numeric fields of the
    request all parse and the storage engine answers the lookup, the
    message is "Product not found". *)
Theorem missing_product_no_write (H : Builtins) env request w :
  ~ refers_to_product request (database w) ->
  failed w (handle (create_invoice env request) w) /\
  (forall pid h wd q,
     parsed request pid h wd q ->
     query_ok env = true ->
     product_not_found w (handle (create_invoice env request) w)).
Proof.
  intros Hmissing. split.
  - destruct (create_invoice_failed_or_committed env request w)
      as [Hfail|(pid & h & wd & q & p & qf & cn & cp & ca & [Hpid _ _ _] & Hp & _)];
      [exact Hfail|].
    destruct Hmissing. exists pid, p. auto.
  - intros pid h wd q Hparsed Hqok.
    apply (create_invoice_product_not_found env request w pid h wd q Hparsed Hqok).
    destruct (Product.get (products (database w)) pid) as [p|] eqn:Hp;
      [|reflexivity].
    destruct Hmissing. exists pid, p. split; [apply Hparsed|exact Hp].
Qed.

Lemma missing_product_demo :
  let request := demo_request "9999" "10" "5" "2" in
  failed demo_world (handle (create_invoice (H := cpython) demo_env request) demo_world) /\
  product_not_found demo_world
    (handle (create_invoice (H := cpython) demo_env request) demo_world).
Proof.
  intros request.
  destruct (missing_product_no_write cpython demo_env request demo_world)
    as [Hfailed Hnot_found].
  - intros (pid & p & Hpid & Hp). vm_compute in Hpid. injection Hpid as <-.
    vm_compute in Hp. discriminate.
  - split; [exact Hfailed|].
    apply (Hnot_found 9999 (Float.of_Z 10) (Float.of_Z 5) 2).
    + split; vm_compute; reflexivity.
    + reflexivity.
Defined.

(** ** Values that are not validated *)




(** ** Zero height, zero quantity *)

(** C7, as stated, fails: for the product at 50.0, a quantity of 0 with a
    height and a width of 1e200 gives area = infinity and the total
    infinity * 50.0 * 0 = NaN; no invoice with [total_amount == 0] is
    written, whether or not the engine carries out the commit. *)
Lemma zero_quantity_total_not_zero :
  let request := demo_request "1" "1e200" "1e200" "0" in
  Product.get (products (database demo_world)) 1 = Some demo_product /\
  py_int (Builtins := cpython) (form request !! "quantity") = Ok 0 /\
  forallb (fun inv => negb (Float.eqb (Invoice.total_amount inv) Float.zero))
    (invoices (database (snd (handle (create_invoice (H := cpython) demo_env request)
                                demo_world)))) = true /\
  forallb (fun inv => negb (Float.eqb (Invoice.total_amount inv) Float.zero))
    (invoices (database (snd (handle (create_invoice (H := cpython)
                                        {| utcnow := 0; query_ok := true;
                                           commit_ok := false;
                                           refresh_ok := true |} request)
                                demo_world)))) = true /\
  (exists h qf,
     py_float (Builtins := cpython) (form request !! "height") = Ok h /\
     py_float_of_int 0 = Ok qf /\
     h *f h *f Product.price_per_sqft demo_product *f qf = Float.nan).
Proof.
  intros request.
  split; [vm_compute; reflexivity|].
  split; [vm_compute; reflexivity|].
  split; [vm_compute; reflexivity|].
  split; [vm_compute; reflexivity|].
  eexists _, _.
  split; [vm_compute; reflexivity|].
  split; vm_compute; reflexivity.
Qed.

(** C7, amended: for every existing product, a request with height = 0 or
    quantity = 0 is accepted and an invoice with [total_amount == 0] is
    written, provided the request is otherwise complete (the numeric fields
    parse, the three customer fields are there, the quantity is in the
    range of a float), height * width * price is finite (no overflow, no
    NaN) and the storage engine answers the lookup, carries out the commit
    and answers the reload of the new invoice. *)
Theorem zero_height_or_quantity_total_zero
    (H : Builtins) env request w pid h wd q p qf cn cp ca :
  parsed request pid h wd q ->
  Product.get (products (database w)) pid = Some p ->
  py_float_of_int q = Ok qf ->
  form request !! "customer_name" = Some cn ->
  form request !! "customer_phone" = Some cp ->
  form request !! "customer_address" = Some ca ->
  available env ->
  refresh_ok env = true ->
  Float.is_finite (h *f wd *f Product.price_per_sqft p) = true ->
  Float.eqb h Float.zero = true \/ q = 0 ->
  exists i w' inv,
    handle (create_invoice env request) w
      = (Ok (redirect (url_view_invoice i)), w') /\
    invoices (database w') = invoices (database w) ++ [inv] /\
    Invoice.id inv = i /\
    Float.eqb (Invoice.total_amount inv) Float.zero = true.
Proof.
  intros Hparsed Hp Hqf Hcn Hcp Hca Hok Hrok Hfin Hzero.
  eexists _, _, _.
  assert (Hz : Float.is_zero (h *f wd *f Product.price_per_sqft p *f qf) = true);
    [|split; [apply (create_invoice_creates env request w pid h wd q p qf cn cp ca);
              auto using FloatFacts.is_zero_not_nan|];
      simpl; split_and!; try reflexivity;
      rewrite FloatFacts.eqb_zero; exact Hz].
  destruct Hzero as [Hh | ->].
  - rewrite FloatFacts.eqb_zero in Hh.
    apply FloatFacts.mul_zero_finite;
      [|exact (FloatFacts.py_float_of_int_finite _ _ Hqf)].
    apply FloatFacts.mul_zero_l; [|exact Hfin].
    apply FloatFacts.mul_zero_l; [exact Hh|].
    exact (FloatFacts.mul_finite_l _ _ Hfin).
  - apply FloatFacts.py_float_of_int_0 in Hqf. subst qf.
    apply FloatFacts.mul_finite_zero; [exact Hfin|reflexivity].
Qed.

Lemma zero_height_demo :
  exists i w' inv,
    handle (create_invoice (H := cpython) demo_env (demo_request "1" "0" "5" "2"))
      demo_world = (Ok (redirect (url_view_invoice i)), w') /\
    invoices (database w') = invoices (database demo_world) ++ [inv] /\
    Invoice.id inv = i /\
    Float.eqb (Invoice.total_amount inv) Float.zero = true.
Proof.
  apply (zero_height_or_quantity_total_zero cpython demo_env
           (demo_request "1" "0" "5" "2") demo_world
           1 Float.zero (Float.of_Z 5) 2 demo_product (Float.of_Z 2)
           "Asha" "555-0100" "12 Mill Road").
  - split; vm_compute; reflexivity.
  - vm_compute; reflexivity.
  - vm_compute; reflexivity.
  - vm_compute; reflexivity.
  - vm_compute; reflexivity.
  - vm_compute; reflexivity.
  - split; reflexivity.
  - reflexivity.
  - vm_compute; reflexivity.
  - left. vm_compute. reflexivity.
Defined.

(** ** The admin listing *)

#[local] Instance newer_first_total : Total Invoice.newer_first.
Proof. intros a b. unfold Invoice.newer_first. lia. Qed.

#[local] Instance newer_first_trans : Transitive Invoice.newer_first.
Proof. intros a b c. unfold Invoice.newer_first. lia. Qed.

(** C8: the admin dashboard, when the storage engine answers its queries,
    lists all stored invoices, each once, ordered by creation timestamp
    descending: every invoice of the listing was created no earlier than
    every invoice after it. *)
Theorem admin_listing_newest_first env w :
  query_ok env = true ->
  exists categories products labor_cost listing,
    handle (admin_dashboard env) w
      = (Ok (render_dashboard categories products labor_cost listing), w) /\
    listing ≡ₚ invoices (database w) /\
    StronglySorted (fun a b => Invoice.created_at b <= Invoice.created_at a) listing.
Proof.
  intros Hqok.
  eexists _, _, _, _. split_and!.
  - unfold handle, admin_dashboard, bind, query, ret. rewrite Hqok. simpl.
    change (end_request (begin_request w)) with
      {| database := database w; flashed := flashed w; logged_in := logged_in w |}.
    destruct w. reflexivity.
  - simpl. apply merge_sort_Permutation.
  - simpl. apply (StronglySorted_merge_sort Invoice.newer_first).
Qed.

(** Three invoices written at the times 100, 300 and 200 are listed in the
    order of their keys 2, 3, 1. *)
Lemma admin_listing_demo :
  let at_time t :=
    {| utcnow := t; query_ok := true; commit_ok := true; refresh_ok := true |} in
  let create t w :=
    snd (handle (create_invoice (H := cpython) (at_time t)
                   (demo_request "1" "10" "5" "2")) w) in
  let w := create 200 (create 300 (create 100 demo_world)) in
  exists categories products labor_cost listing,
    handle (admin_dashboard demo_env) w
      = (Ok (render_dashboard categories products labor_cost listing), w) /\
    listing ≡ₚ invoices (database w) /\
    StronglySorted (fun a b => Invoice.created_at b <= Invoice.created_at a) listing /\
    map Invoice.id (invoices (database w)) = [1; 2; 3] /\
    map Invoice.id listing = [2; 3; 1].
Proof.
  intros at_time create w.
  destruct (admin_listing_newest_first demo_env w eq_refl)
    as (categories & products & labor_cost & listing & Hrun & Hperm & Hsorted).
  exists categories, products, labor_cost, listing.
  split; [exact Hrun|]. split; [exact Hperm|]. split; [exact Hsorted|].
  split; [vm_compute; reflexivity|].
  vm_compute in Hrun. injection Hrun as _ _ _ <-. vm_compute. reflexivity.
Defined.

(** ** What every operation does to the tables *)

Section Operations.
Context `{Builtins}.

(** No operation removes or rewrites an invoice: the table only grows at
    its end. *)
Lemma step_appends_invoices op w :
  exists later,
    invoices (database (step op w)) = invoices (database w) ++ later.
Proof.
  destruct op as [env|env| |env|r env request|pid price]; [| | | |destruct r|].
  all: handler_cases.
  all: try (exists []; rewrite app_nil_r; reflexivity).
  all: eexists; reflexivity.
Qed.

Lemma steps_append_invoices ops : forall w,
  exists later,
    invoices (database (steps ops w)) = invoices (database w) ++ later.
Proof.
  unfold steps.
  induction ops as [|op ops IH]; intros w; simpl.
  - exists []. rewrite app_nil_r. reflexivity.
  - destruct (IH (step op w)) as [later2 H2].
    destruct (step_appends_invoices op w) as [later1 H1].
    exists (later1 ++ later2). rewrite H2, H1, app_assoc. reflexivity.
Qed.

Lemma first_None_empty rows : LaborCost.first rows = None -> rows = [].
Proof. destruct rows; [reflexivity|discriminate]. Qed.

(** Every operation keeps the labor-cost table at one row at most. *)
Lemma step_keeps_one_labor_row op w :
  (length (labor_rows w) <= 1)%nat -> (length (labor_rows (step op w)) <= 1)%nat.
Proof.
  unfold labor_rows.
  destruct op as [env|env| |env|r env request|pid price]; [| | | |destruct r|].
  all: handler_cases.
  all: try (intros Hone; exact Hone).
  all: try match goal with
           | Hf : LaborCost.first ?rows = None |- _ =>
               apply first_None_empty in Hf; rewrite Hf; simpl; lia
           end.
  all: unfold LaborCost.set_rate; rewrite length_map; intros Hone; exact Hone.
Qed.

Lemma steps_keep_one_labor_row ops : forall w,
  (length (labor_rows w) <= 1)%nat -> (length (labor_rows (steps ops w)) <= 1)%nat.
Proof.
  unfold steps.
  induction ops as [|op ops IH]; intros w Hone; simpl; [exact Hone|].
  apply IH, step_keeps_one_labor_row, Hone.
Qed.

(** Initialization adds no labor row to a table that has one. *)
Lemma init_database_keeps_labor_row env w :
  labor_rows w <> [] -> labor_rows (step (Startup env) w) = labor_rows w.
Proof.
  unfold labor_rows. intros Hsome.
  handler_cases; try reflexivity.
  all: match goal with
       | Hf : LaborCost.first ?rows = None |- _ =>
           apply first_None_empty in Hf; contradiction
       end.
Qed.

(** [update_labor] on a table with a row keeps the row and its key, and
    sets its rate when the commit goes through. *)
Lemma update_labor_in_place env request w l rest :
  labor_rows w = l :: rest ->
  labor_rows (snd (handle (update_labor env request) w)) = labor_rows w \/
  exists rate,
    py_float (form request !! "rate") = Ok rate /\
    labor_rows (snd (handle (update_labor env request) w))
      = LaborCost.set_rate (labor_rows w) (LaborCost.id l) rate.
Proof.
  unfold labor_rows. intros Hrows.
  unfold handle, update_labor, bind, lift, query, db_session_add,
    db_session_commit, ret, begin_request, end_request; simpl.
  destruct (py_float (form request !! "rate")) as [rate|]; simpl; [|auto].
  destruct (query_ok env); simpl; [|auto].
  rewrite Hrows; simpl.
  destruct (commit_ok env); simpl; [|auto].
  right. exists rate. split; [reflexivity|].
  rewrite Hrows. reflexivity.
Qed.

End Operations.

(** ** Snapshots *)

(** C4: an invoice that is in the database stays there as it is through
    every later sequence of operations, a change of the price of its
    product among them: the table of invoices only grows at its end, and
    [Invoice.query.get] keeps returning the same row, hence the same
    [sqft_price_at_booking], [product_name] and [total_amount]. *)
Theorem snapshot_fields_never_change (H : Builtins) ops w i inv :
  Invoice.get (invoices (database w)) i = Some inv ->
  (exists later,
     invoices (database (steps ops w)) = invoices (database w) ++ later) /\
  Invoice.get (invoices (database (steps ops w))) i = Some inv /\
  (exists inv',
     Invoice.get (invoices (database (steps ops w))) i = Some inv' /\
     Invoice.sqft_price_at_booking inv' = Invoice.sqft_price_at_booking inv /\
     Invoice.product_name inv' = Invoice.product_name inv /\
     Invoice.total_amount inv' = Invoice.total_amount inv).
Proof.
  intros Hget.
  destruct (steps_append_invoices ops w) as [later Hlater].
  assert (Hkept : Invoice.get (invoices (database (steps ops w))) i = Some inv).
  { rewrite Hlater. apply Invoice_get_app, Hget. }
  split; [exists later; exact Hlater|].
  split; [exact Hkept|].
  exists inv. auto.
Qed.

(** The invoice of the concrete shop, then a price change of its product
    from 50.0 to 80.0, a new labor rate and a second invoice: the first
    invoice still shows the price 50.0 and the total 5000.0. *)
Lemma snapshot_survives_price_change :
  let request := demo_request "1" "10" "5" "2" in
  let w1 := snd (handle (create_invoice (H := cpython) demo_env request) demo_world) in
  let ops := [EditProductPrice 1 (Float.of_Z 80);
              Startup demo_env;
              Serve route_admin_login demo_env
                {| method := POST;
                   form := list_to_map [("username", "admin"); ("password", "admin123")] |};
              Serve route_update_labor demo_env
                {| method := POST; form := {[ "rate" := "75" ]} |};
              Serve route_create_invoice demo_env request] in
  exists inv,
    Invoice.get (invoices (database w1)) 1 = Some inv /\
    Invoice.get (invoices (database (steps (H := cpython) ops w1))) 1 = Some inv /\
    Invoice.sqft_price_at_booking inv = Float.of_Z 50 /\
    Invoice.total_amount inv = Float.of_Z 5000 /\
    map Product.price_per_sqft (products (database (steps (H := cpython) ops w1)))
      = [Float.of_Z 80] /\
    map Invoice.total_amount (invoices (database (steps (H := cpython) ops w1)))
      = [Float.of_Z 5000; Float.of_Z 8000].
Proof.
  intros request w1 ops.
  eexists.
  assert (Hget : Invoice.get (invoices (database w1)) 1 = Some _)
    by (vm_compute; reflexivity).
  split; [exact Hget|].
  destruct (snapshot_fields_never_change cpython ops w1 1 _ Hget) as (_ & Hkept & _).
  split; [exact Hkept|].
  split; [vm_compute; reflexivity|].
  split; [vm_compute; reflexivity|].
  split; vm_compute; reflexivity.
Defined.

(** ** The labor-cost row *)

(** C10: the labor-cost table holds at most one row in every state the
    application reaches, and every operation keeps it so; initialization
    adds no row to a table that has one; [update_labor] on a table that has
    a row leaves the table as it is or sets the rate of that row in place
    (to NULL when the rate is NaN), without adding a second. *)
Theorem at_most_one_labor_cost_row (H : Builtins) :
  (forall ops,
     (length (labor_costs (database (steps ops initial_world))) <= 1)%nat) /\
  (forall op w,
     (length (labor_costs (database w)) <= 1)%nat ->
     (length (labor_costs (database (step op w))) <= 1)%nat) /\
  (forall env w,
     labor_costs (database w) <> [] ->
     labor_costs (database (step (Startup env) w)) = labor_costs (database w)) /\
  (forall env request w l,
     labor_costs (database w) = [l] ->
     let rows' := labor_costs (database (snd (handle (update_labor env request) w))) in
     rows' = [l] \/
     exists rate,
       py_float (form request !! "rate") = Ok rate /\
       rows' = [{| LaborCost.id := LaborCost.id l;
                   LaborCost.rate_per_sqft := nullable_float rate |}]).
Proof.
  split_and!.
  - intros ops. apply (steps_keep_one_labor_row ops initial_world). simpl. lia.
  - intros op w. apply (step_keeps_one_labor_row op w).
  - intros env w. apply (init_database_keeps_labor_row env w).
  - intros env request w l Hrow. simpl.
    destruct (update_labor_in_place env request w l [] Hrow) as [Hsame|(rate & Hrate & Hset)].
    + left. unfold labor_rows in Hsame. rewrite Hsame. exact Hrow.
    + right. exists rate. split; [exact Hrate|].
      unfold labor_rows in Hset. rewrite Hset, Hrow. simpl.
      rewrite Z.eqb_refl. reflexivity.
Qed.

(** The shop with its one labor row at 50.0: a logged-in admin sets the rate
    to 75, and the table still holds one row, with the key it had. *)
Lemma labor_rate_updated_in_place :
  let login :=
    Serve route_admin_login demo_env
      {| method := POST;
         form := list_to_map [("username", "admin"); ("password", "admin123")] |} in
  let update :=
    Serve route_update_labor demo_env
      {| method := POST; form := {[ "rate" := "75" ]} |} in
  let w := steps (H := cpython) [Startup demo_env; login] initial_world in
  (length (labor_costs (database w)) <= 1)%nat /\
  (length (labor_costs (database (step (H := cpython) update w))) <= 1)%nat /\
  labor_costs (database (step (H := cpython) update w))
    = [{| LaborCost.id := 1; LaborCost.rate_per_sqft := Some (Float.of_Z 75) |}].
Proof.
  intros login update w.
  assert (Hone : (length (labor_costs (database w)) <= 1)%nat)
    by (vm_compute; lia).
  split; [exact Hone|].
  split.
  - exact (proj1 (proj2 (at_most_one_labor_cost_row cpython)) update w Hone).
  - vm_compute. reflexivity.
Defined.

(** * Further properties of the application *)

(** ** Their vocabulary *)

(** The routes behind [@login_required]. *)
Definition protected (r : route) : bool :=
  match r with
  | route_home | route_product_detail _ | route_admin_login => false
  | _ => true
  end.

(** The routes whose view function calls neither [db.session.add] nor
    [db.session.commit]. *)
Definition read_only (r : route) : bool :=
  match r with
  | route_home | route_product_detail _ | route_admin_login
  | route_admin_logout | route_admin_dashboard | route_view_invoice _ => true
  | _ => false
  end.


(** The product an invoice row names is in the product table. *)
Definition product_known (d : Database) (inv : Invoice.t) : Prop :=
  is_Some (Product.get (products d) (Invoice.product_id inv)).

(** No table holds two rows with the same primary key. *)
Definition keys_unique (d : Database) : Prop :=
  NoDup (map Admin.id (admins d)) /\
  NoDup (map Category.id (categories d)) /\
  NoDup (map Product.id (products d)) /\
  NoDup (map LaborCost.id (labor_costs d)) /\
  NoDup (map Invoice.id (invoices d)).

(** The only admin there ever is: at most one row, named "admin". *)
Definition only_default_admin (d : Database) : Prop :=
  (length (admins d) <= 1)%nat /\
  Forall (fun a => Admin.username a = "admin") (admins d).

(** werkzeug's contract: a hash checks against the password it was made
    from. *)
Definition hash_checks `{Builtins} : Prop :=
  forall password,
    check_password_hash (generate_password_hash password) (Some password) = Ok true.

(** ** Primary keys *)

Lemma next_id_fresh ids : NoDup ids -> NoDup (ids ++ [next_id ids]).
Proof.
  intros Hnd. apply NoDup_app. split_and!.
  - exact Hnd.
  - intros i Hi Hnew. apply list_elem_of_singleton in Hnew. subst i.
    apply list_elem_of_In, next_id_above in Hi. lia.
  - apply NoDup_singleton.
Qed.

Lemma set_rate_ids rows i rate :
  map LaborCost.id (LaborCost.set_rate rows i rate) = map LaborCost.id rows.
Proof.
  unfold LaborCost.set_rate. induction rows as [|r rows IH]; simpl; [reflexivity|].
  rewrite IH. destruct (LaborCost.id r =? i); reflexivity.
Qed.

Lemma edit_price_ids pid price rows :
  map Product.id
    (map (fun p =>
            if Product.id p =? pid
            then {| Product.id := Product.id p;
                    Product.name := Product.name p;
                    Product.description := Product.description p;
                    Product.image_url := Product.image_url p;
                    Product.price_per_sqft := price;
                    Product.category_id := Product.category_id p |}
            else p) rows)
  = map Product.id rows.
Proof.
  induction rows as [|r rows IH]; simpl; [reflexivity|].
  rewrite IH. destruct (Product.id r =? pid); reflexivity.
Qed.

Section MoreOperations.
Context `{Builtins}.

(** Every operation keeps the primary keys of every table distinct. *)
Lemma step_keeps_keys_unique op w :
  keys_unique (database w) -> keys_unique (database (step op w)).
Proof.
  unfold keys_unique.
  destruct op as [env|env| |env|r env request|pid price]; [| | | |destruct r|].
  all: handler_cases.
  all: intros (Ha & Hc & Hp & Hl & Hi).
  all: rewrite ?map_app, ?set_rate_ids, ?edit_price_ids; simpl.
  all: split_and!; try assumption.
  all: apply next_id_fresh; assumption.
Qed.

(** An invariant of every operation is an invariant of every sequence of
    operations. *)
Lemma steps_invariant (P : World -> Prop) :
  (forall op w, P w -> P (step op w)) ->
  forall ops w, P w -> P (steps ops w).
Proof.
  intros Hstep ops. unfold steps.
  induction ops as [|op ops IH]; intros w Hw; simpl; [exact Hw|].
  apply IH, Hstep, Hw.
Qed.

(** X1: through every sequence of operations the primary keys of every
    table stay pairwise distinct: a new row takes a key above all the keys
    of its table, and no operation rewrites a key. *)
Theorem primary_keys_stay_unique ops w :
  keys_unique (database w) -> keys_unique (database (steps ops w)).
Proof.
  apply (steps_invariant (fun w => keys_unique (database w))).
  intros op w'. apply step_keeps_keys_unique.
Qed.

(** [@login_required] either runs the view as it is, or leaves the
    database alone (the client is sent to the login page, or the lookup of
    the user raised). *)
Lemma login_required_cases env (view : M Response) w :
  handle (login_required env view) w = handle view w \/
  database (snd (handle (login_required env view) w)) = database w.
Proof.
  unfold handle, login_required, bind, current_user_is_authenticated,
    current_user, load_user, query, ret, flash, begin_request. simpl.
  destruct (logged_in w) as [uid|]; simpl; [|right; reflexivity].
  destruct (query_ok env); simpl; [|right; reflexivity].
  destruct (bool_decide _); simpl; [left; reflexivity|right; reflexivity].
Qed.

(** What an operation does to the table of invoices: nothing, or what a
    run of [create_invoice] that ends on the page of the new invoice does
    to the database. *)
Lemma step_invoices_cases op w :
  invoices (database (step op w)) = invoices (database w) \/
  exists env request i w',
    handle (create_invoice env request) w
      = (Ok (redirect (url_view_invoice i)), w') /\
    database (step op w) = database w'.
Proof.
  destruct op as [env|env| |env|r env request|pid price]; [| | | |destruct r|].
  13: {
    change (step (Serve route_create_invoice env request) w)
      with (snd (handle (login_required env (create_invoice env request)) w)).
    destruct (login_required_cases env (create_invoice env request) w)
      as [Hrun|Hsame]; [|left; rewrite Hsame; reflexivity].
    rewrite Hrun.
    destruct (create_invoice_outcome env request w)
      as [(i & w1 & Hout)|[(msg & Hout)|(_ & i & w1 & msg & Hanswered & Hout)]].
    - right. exists env, request, i, w1. rewrite Hout. auto.
    - left. rewrite Hout. reflexivity.
    - right. exists (answering env), request, i, w1. rewrite Hout. auto. }
  all: handler_cases; left; reflexivity.
Qed.

(** ** Invariants of the invoice table *)



Lemma edit_price_keeps_lookup pid price rows i :
  is_Some (Product.get rows i) ->
  is_Some (Product.get
    (map (fun p =>
            if Product.id p =? pid
            then {| Product.id := Product.id p;
                    Product.name := Product.name p;
                    Product.description := Product.description p;
                    Product.image_url := Product.image_url p;
                    Product.price_per_sqft := price;
                    Product.category_id := Product.category_id p |}
            else p) rows) i).
Proof.
  unfold Product.get.
  induction rows as [|r rows IH]; simpl; [auto|].
  destruct (Product.id r =? pid); simpl;
    destruct (Product.id r =? i); simpl; eauto.
Qed.

(** No operation removes a product: a key that is found stays found. *)
Lemma step_keeps_product_lookup op w i :
  is_Some (Product.get (products (database w)) i) ->
  is_Some (Product.get (products (database (step op w))) i).
Proof.
  destruct op as [env|env| |env|r env request|pid price]; [| | | |destruct r|].
  all: handler_cases.
  all: try (intros Hp; exact Hp).
  - intros [p Hp]. exists p. apply find_app_Some, Hp.
  - apply edit_price_keeps_lookup.
Qed.

Lemma step_keeps_products_known op w :
  Forall (product_known (database w)) (invoices (database w)) ->
  Forall (product_known (database (step op w))) (invoices (database (step op w))).
Proof.
  intros Hall.
  assert (Hold : Forall (product_known (database (step op w))) (invoices (database w))).
  { eapply Forall_impl; [exact Hall|].
    intros inv. apply step_keeps_product_lookup. }
  destruct (step_invoices_cases op w) as [Hsame|(env & request & i & w' & Hrun & Hstep)].
  - rewrite Hsame. exact Hold.
  - rewrite Hstep in *.
    apply create_invoice_created in Hrun
      as (pid & h & wd & q & p & qf & cn & cp & ca
          & _ & Hp & _ & _ & _ & _ & _ & _ & Hw').
    simpl in Hw'. subst w'. simpl in *.
    apply Forall_app. split; [exact Hold|].
    constructor; [|constructor].
    unfold product_known. simpl.
    rewrite (Product_get_id _ _ _ Hp), Hp. eauto.
Qed.

(** X3: no invoice is left with a dangling product: if the product of every
    stored invoice is in the product table, it is so after every sequence
    of operations. An invoice is only written for a product that was
    found, and no operation removes a product or changes its key. *)
Theorem invoices_keep_their_product ops w :
  Forall (product_known (database w)) (invoices (database w)) ->
  Forall (product_known (database (steps ops w)))
    (invoices (database (steps ops w))).
Proof.
  apply (steps_invariant
           (fun w => Forall (product_known (database w)) (invoices (database w)))).
  intros op w'. apply step_keeps_products_known.
Qed.

(** ** The default admin *)

Lemma no_admin_named_admin rows :
  Forall (fun a => Admin.username a = "admin") rows ->
  find (fun r => String.eqb (Admin.username r) "admin") rows = None ->
  rows = [].
Proof.
  destruct rows as [|a rows]; [reflexivity|].
  intros Hall. apply Forall_inv in Hall. simpl. rewrite Hall. discriminate.
Qed.

Lemma step_keeps_only_default_admin op w :
  only_default_admin (database w) -> only_default_admin (database (step op w)).
Proof.
  unfold only_default_admin.
  destruct op as [env|env| |env|r env request|pid price]; [| | | |destruct r|].
  all: handler_cases.
  all: try (intros Hinv; exact Hinv).
  all: intros [_ Hall];
    match goal with
    | Hf : find _ ?rows = None |- _ =>
        rewrite (no_admin_named_admin _ Hall Hf)
    end; simpl; split; [lia|repeat constructor].
Qed.

(** X4: in every state the application reaches from an empty database there
    is at most one admin, and it is named "admin": the three places that
    create an admin all test first that none of that name exists. *)
Theorem only_the_default_admin ops :
  only_default_admin (database (steps ops initial_world)).
Proof.
  apply (steps_invariant (fun w => only_default_admin (database w))).
  - intros op w. apply step_keeps_only_default_admin.
  - split; [simpl; lia|constructor].
Qed.

(** X5: when an admin named "admin" exists, initialization writes nothing,
    at startup, under [flask create-admin] and under [__main__] alike. In
    particular it adds no labor-cost row, even to an empty labor-cost
    table: the test for the labor row sits inside the branch that creates
    the admin. *)
Theorem init_writes_nothing_when_admin_exists env w a :
  Admin.first_by_username (admins (database w)) (Some "admin") = Some a ->
  database (step (Startup env) w) = database w /\
  database (step (CliCreateAdmin env) w) = database w /\
  database (step (Main env) w) = database w.
Proof.
  intros Ha. simpl in Ha.
  split_and!; unfold_app; simpl; destruct (query_ok env); simpl;
    try reflexivity; rewrite Ha; reflexivity.
Qed.

Lemma find_None_existsb {A} (f : A -> bool) l :
  find f l = None -> existsb f l = false.
Proof.
  induction l as [|a l IH]; simpl; [reflexivity|].
  destruct (f a); [discriminate|exact IH].
Qed.

(** The row of the default admin and the table of labor costs after the
    first initialization. *)
Definition default_admin (rows : list Admin.t) : Admin.t :=
  {| Admin.id := next_id (map Admin.id rows);
     Admin.username := "admin";
     Admin.password_hash := generate_password_hash "admin123" |}.

Definition default_labor (rows : list LaborCost.t) : list LaborCost.t :=
  match rows with
  | [] => [{| LaborCost.id := 1; LaborCost.rate_per_sqft := Some (Float.of_Z 50) |}]
  | _ :: _ => rows
  end.

(** X6: on a database without an admin named "admin", and with the storage
    engine available, initialization appends the admin "admin" with the
    hash of "admin123", appends the labor-cost row at 50.0 when the table
    is empty and leaves the table alone otherwise, and touches no other
    table. *)
Theorem init_creates_the_defaults env w :
  Admin.first_by_username (admins (database w)) (Some "admin") = None ->
  available env ->
  database (step (Startup env) w)
  = {| admins := admins (database w) ++ [default_admin (admins (database w))];
       categories := categories (database w);
       products := products (database w);
       labor_costs := default_labor (labor_costs (database w));
       invoices := invoices (database w) |}.
Proof.
  intros Ha [Hq Hc]. simpl in Ha.
  unfold_app; simpl. rewrite Hq; simpl. rewrite Ha; simpl.
  destruct (labor_costs (database w)) as [|l rows] eqn:Hl; simpl.
  - rewrite Hc; simpl. unfold_app; simpl.
    rewrite (find_None_existsb _ _ Ha); simpl.
    rewrite Hl. reflexivity.
  - rewrite Hc; simpl. unfold_app; simpl.
    rewrite (find_None_existsb _ _ Ha); simpl.
    rewrite Hl. reflexivity.
Qed.

(** X7: after the first initialization the default credentials log in: a
    POST of "admin" and "admin123" to the login page, by a client that is
    not logged in, is redirected to the dashboard as the new admin,
    provided the hashing library checks a hash against the password it was
    made from. *)
Theorem default_admin_logs_in env env' request w :
  hash_checks ->
  Admin.first_by_username (admins (database w)) (Some "admin") = None ->
  available env ->
  query_ok env' = true ->
  logged_in w = None ->
  method request = POST ->
  form request !! "username" = Some "admin" ->
  form request !! "password" = Some "admin123" ->
  let w1 := step (Startup env) w in
  handle (admin_login env' request) w1
  = (Ok (redirect url_admin_dashboard),
     {| database := database w1; flashed := flashed w1;
        logged_in := Some (next_id (map Admin.id (admins (database w)))) |}).
Proof.
  intros Hhash Ha Hav Hq' Hanon Hpost Huser Hpw w1.
  assert (Hdb : database w1
                = {| admins := admins (database w) ++ [default_admin (admins (database w))];
                     categories := categories (database w);
                     products := products (database w);
                     labor_costs := default_labor (labor_costs (database w));
                     invoices := invoices (database w) |}).
  { unfold w1. destruct Hav as [Hq Hc]. simpl in Ha.
    unfold_app; simpl. rewrite Hq; simpl. rewrite Ha; simpl.
    destruct (labor_costs (database w)) as [|l rows] eqn:Hl; simpl;
      rewrite Hc; simpl; unfold_app; simpl;
      rewrite (find_None_existsb _ _ Ha); simpl; rewrite Hl; reflexivity. }
  assert (Hlog : logged_in w1 = None).
  { unfold w1. destruct Hav as [Hq Hc]. simpl in Ha.
    unfold_app; simpl. rewrite Hq; simpl. rewrite Ha; simpl.
    destruct (LaborCost.first _); simpl; rewrite Hc; simpl; unfold_app; simpl;
      rewrite (find_None_existsb _ _ Ha); simpl; exact Hanon. }
  unfold handle, admin_login, bind, current_user_is_authenticated, current_user,
    load_user, query, ret, lift, login_user, begin_request, end_request.
  simpl. rewrite Hlog; simpl. rewrite Hpost, Huser, Hpw, Hq'; simpl.
  rewrite Hdb; simpl. simpl in Ha.
  rewrite (find_app_None _ _ _ Ha). simpl.
  unfold Admin.check_password; simpl. rewrite Hhash. simpl. reflexivity.
Qed.

(** X8: the login page logs in nobody without a matching admin: if a client
    that was not logged in is logged in afterwards, the request was a POST
    whose username names an admin row, the new user id is the key of that
    row, and the library accepted the password against the hash of that
    row. *)
Theorem login_needs_a_matching_admin env request w i :
  logged_in w = None ->
  logged_in (snd (handle (admin_login env request) w)) = Some i ->
  method request = POST /\
  exists admin,
    Admin.first_by_username (admins (database w)) (form request !! "username")
      = Some admin /\
    Admin.id admin = i /\
    Admin.check_password admin (form request !! "password") = Ok true.
Proof.
  intros Hanon.
  unfold handle, admin_login, bind, current_user_is_authenticated, current_user,
    load_user, query, ret, lift, login_user, flash, begin_request, end_request.
  simpl. rewrite Hanon; simpl.
  destruct (method request); simpl; [congruence|].
  destruct (query_ok env); simpl; [|congruence].
  destruct (Admin.first_by_username _ _) as [admin|] eqn:Hadmin; simpl; [|congruence].
  destruct (Admin.check_password admin _) as [[|]|e] eqn:Hcheck; simpl;
    try congruence.
  intros Hi. injection Hi as <-. split; [reflexivity|]. eauto.
Qed.

(** ** Who may write *)

(** X9: a request changes the database only through one of the four
    writing routes (add category, add product, update labor, create
    invoice) and only for a client whose session names an admin row: the
    public pages, the login and logout pages, the dashboard and the invoice
    page never write, and nothing is written for an anonymous client. *)
Theorem writes_need_an_admin r env request w :
  database (step (Serve r env request) w) <> database w ->
  read_only r = false /\
  protected r = true /\
  exists i admin,
    logged_in w = Some i /\
    Admin.get (admins (database w)) i = Some admin.
Proof.
  destruct r.
  all: handler_cases.
  all: intros Hne; try (destruct Hne; reflexivity).
  all: split; [reflexivity|]; split; [reflexivity|].
  all: match goal with
       | Hb : bool_decide _ = true |- _ =>
           apply bool_decide_eq_true in Hb; destruct Hb as [found Hfound];
           eexists _, found; split; [reflexivity|exact Hfound]
       end.
Qed.

(** ** The writers without [try] *)

(** X11: the route of [add_category], for a logged-in admin whose row the
    storage engine returns, does nothing on a missing or empty name: it
    redirects to the dashboard, flashes nothing and leaves the database and
    the session as they were. Nothing is added and no commit is attempted,
    so the outcome is the same whether or not the engine would carry out a
    commit. *)
Theorem add_category_ignores_blank_name env request w i admin :
  logged_in w = Some i ->
  Admin.get (admins (database w)) i = Some admin ->
  query_ok env = true ->
  truthy (form request !! "name") = None ->
  handle (view_function route_add_category env request) w
  = (Ok (redirect url_admin_dashboard), w).
Proof.
  intros Hin Hadmin Hq Hblank.
  destruct w as [d msgs user]. simpl in Hin, Hadmin. subst user.
  unfold handle, view_function, login_required, bind,
    current_user_is_authenticated, current_user, load_user, query, ret,
    begin_request. simpl.
  rewrite Hq. simpl. rewrite Hadmin. simpl.
  unfold add_category, bind, ret. rewrite Hblank. reflexivity.
Qed.

(** X12: [add_category] with a name that is not empty, when the engine
    carries out the commit, appends exactly one category with that name
    and the next key, and changes nothing else. *)
Theorem add_category_appends_one_row env request w name :
  form request !! "name" = Some name ->
  name <> "" ->
  commit_ok env = true ->
  handle (add_category env request) w
  = (Ok (redirect url_admin_dashboard),
     {| database :=
          {| admins := admins (database w);
             categories :=
               categories (database w)
               ++ [{| Category.id := next_id (map Category.id (categories (database w)));
                      Category.name := name |}];
             products := products (database w);
             labor_costs := labor_costs (database w);
             invoices := invoices (database w) |};
        flashed := flashed w; logged_in := logged_in w |}).
Proof.
  intros Hname Hne Hc.
  unfold handle, add_category, bind, ret, db_session_add, db_session_commit.
  rewrite Hname. destruct name as [|c name]; [contradiction|]. simpl.
  rewrite Hc. reflexivity.
Qed.

(** X13: the three writers that have no [try] are all-or-nothing: whenever
    [add_category], [add_product] or [update_labor] raises (a field that
    does not parse, a missing product name, an engine that does not
    answer), the database, the flashed messages and the login are exactly
    as before, and the exception is the one that was raised inside. *)
Theorem unguarded_writers_fail_clean env request w e :
  (fst (handle (add_category env request) w) = Raise e ->
   snd (handle (add_category env request) w) = w) /\
  (fst (handle (add_product env request) w) = Raise e ->
   snd (handle (add_product env request) w) = w) /\
  (fst (handle (update_labor env request) w) = Raise e ->
   snd (handle (update_labor env request) w) = w).
Proof.
  destruct w as [d msgs user].
  split_and!; handler_cases; intros Hraise; try discriminate Hraise; reflexivity.
Qed.




(** ** The invoice page and the listing *)

(** X16: the redirect of a created invoice leads to it: after
    [create_invoice] redirected to the page of invoice [i], that page, when
    the engine answers, renders the row that was just appended, whose key
    is [i]. *)
Theorem created_invoice_is_viewable env request w i w' env' :
  handle (create_invoice env request) w
    = (Ok (redirect (url_view_invoice i)), w') ->
  query_ok env' = true ->
  exists inv,
    handle (view_invoice env' i) w'
      = (Ok (render_invoice_view inv (utcnow env')), w') /\
    Invoice.id inv = i /\
    Invoice.created_at inv = utcnow env /\
    invoices (database w') = invoices (database w) ++ [inv].
Proof.
  intros Hrun Hq'.
  apply create_invoice_created in Hrun
    as (pid & h & wd & q & p & qf & cn & cp & ca
        & _ & _ & _ & _ & _ & _ & _ & Hi & Hw').
  simpl in Hi, Hw'. subst i w'.
  exists (booked (database w) env cn cp ca p h wd q
            (h *f wd *f Product.price_per_sqft p *f qf)).
  split_and!; try reflexivity.
  unfold handle, view_invoice, bind, query, get_or_404, ret, lift. simpl.
  rewrite Hq'; simpl.
  rewrite (Invoice_get_new _ (booked (database w) env cn cp ca p h wd q _) eq_refl).
  reflexivity.
Qed.

(** X17: the invoice page renders an invoice exactly when one with the
    requested key is stored: when the engine answers, either it renders a
    stored invoice whose key is the requested one, or no stored invoice has
    that key and it raises [NotFound]; in both cases nothing changes. *)
Theorem view_invoice_renders_or_404 env i w :
  query_ok env = true ->
  (exists inv,
     handle (view_invoice env i) w
       = (Ok (render_invoice_view inv (utcnow env)), w) /\
     In inv (invoices (database w)) /\ Invoice.id inv = i)
  \/
  (handle (view_invoice env i) w = (Raise (Exception NotFound "404 Not Found"), w) /\
   forall inv, In inv (invoices (database w)) -> Invoice.id inv <> i).
Proof.
  intros Hq.
  unfold handle, view_invoice, bind, query, get_or_404, ret, lift. simpl.
  rewrite Hq; simpl.
  destruct (Invoice.get (invoices (database w)) i) as [inv|] eqn:Hget; simpl.
  - left. exists inv. unfold Invoice.get in Hget.
    apply find_some in Hget as [Hin Hid].
    split_and!; [destruct w; reflexivity|exact Hin|lia].
  - right. split; [destruct w; reflexivity|].
    intros inv Hin Hid. unfold Invoice.get in Hget.
    pose proof (find_none _ _ Hget inv Hin) as Hne. simpl in Hne. lia.
Qed.

(** X18: an invoice written later than every stored invoice heads the admin
    listing: after [create_invoice] succeeded at a clock reading above the
    [created_at] of every stored invoice, the dashboard lists the new
    invoice first. *)
Theorem newest_invoice_heads_the_listing env request w i w' env' :
  handle (create_invoice env request) w
    = (Ok (redirect (url_view_invoice i)), w') ->
  Forall (fun inv => Invoice.created_at inv < utcnow env) (invoices (database w)) ->
  query_ok env' = true ->
  exists categories products labor_cost inv rest,
    handle (admin_dashboard env') w'
      = (Ok (render_dashboard categories products labor_cost (inv :: rest)), w') /\
    Invoice.id inv = i /\
    Invoice.created_at inv = utcnow env.
Proof.
  intros Hrun Hold Hq'.
  apply create_invoice_created in Hrun
    as (pid & h & wd & q & p & qf & cn & cp & ca
        & _ & _ & _ & _ & _ & _ & _ & Hi & Hw').
  simpl in Hi, Hw'.
  set (row := booked (database w) env cn cp ca p h wd q
                (h *f wd *f Product.price_per_sqft p *f qf)) in *.
  set (listing := Invoice.order_by_created_at_desc (invoices (database w) ++ [row])).
  assert (Hperm : listing ≡ₚ invoices (database w) ++ [row])
    by apply merge_sort_Permutation.
  assert (Hsorted : StronglySorted Invoice.newer_first listing)
    by apply (StronglySorted_merge_sort Invoice.newer_first).
  assert (Hnew : row ∈ listing).
  { rewrite Hperm. apply elem_of_app. right. apply list_elem_of_singleton.
    reflexivity. }
  assert (Hhead : exists rest, listing = row :: rest).
  { destruct listing as [|x rest] eqn:Hlisting.
    - apply not_elem_of_nil in Hnew. contradiction.
    - exists rest. f_equal.
      assert (Hx : x ∈ invoices (database w) ++ [row]).
      { rewrite <- Hperm. apply list_elem_of_here. }
      apply elem_of_app in Hx as [Hx|Hx];
        [|apply list_elem_of_singleton in Hx; exact Hx].
      exfalso.
      rewrite Forall_forall in Hold.
      pose proof (Hold x Hx) as Hlt.
      apply elem_of_cons in Hnew as [Heq|Hin].
      + rewrite <- Heq in Hlt. simpl in Hlt. lia.
      + apply StronglySorted_inv in Hsorted as [_ Hall].
        rewrite Forall_forall in Hall.
        pose proof (Hall row Hin) as Hle.
        unfold Invoice.newer_first in Hle. simpl in Hle. lia. }
  destruct Hhead as [rest Hrest].
  exists (categories (database w)), (products (database w)),
    (LaborCost.first (labor_costs (database w))), row, rest.
  split_and!; [|symmetry; exact Hi|reflexivity].
  subst w'. unfold handle, admin_dashboard, bind, query, ret. simpl.
  rewrite Hq'; simpl. fold listing. rewrite Hrest. reflexivity.
Qed.

(** ** Requests that [create_invoice] turns down *)

(** X19: a request that lacks one of the three customer fields writes no
    invoice: the columns are declared [nullable=False], the commit raises,
    and the handler flashes the message and goes back to the dashboard. *)
Theorem missing_customer_field_no_write env request w :
  form request !! "customer_name" = None \/
  form request !! "customer_phone" = None \/
  form request !! "customer_address" = None ->
  failed w (handle (create_invoice env request) w).
Proof.
  intros Hmissing.
  destruct (create_invoice_failed_or_committed env request w)
    as [Hfail|(pid & h & wd & q & p & qf & cn & cp & ca
               & _ & _ & _ & Hcn & Hcp & Hca & _)];
    [exact Hfail|].
  destruct Hmissing as [Hm|[Hm|Hm]]; congruence.
Qed.

(** X20: a quantity that parses as an integer but lies outside the range of
    a float writes no invoice: [float * int] raises [OverflowError], which
    the handler catches. *)
Theorem quantity_beyond_float_no_write env request w q e :
  py_int (form request !! "quantity") = Ok q ->
  py_float_of_int q = Raise e ->
  failed w (handle (create_invoice env request) w).
Proof.
  intros Hq Hover.
  destruct (create_invoice_failed_or_committed env request w)
    as [Hfail|(pid & h & wd & q' & p & qf & cn & cp & ca
               & [_ _ _ Hq'] & _ & Hqf & _)];
    [exact Hfail|].
  congruence.
Qed.

End MoreOperations.

(** ** The further properties on the concrete shop *)

(** The login form with the default credentials. *)
Definition demo_login : Request :=
  {| method := POST;
     form := list_to_map [("username", "admin"); ("password", "admin123")] |}.

(** The shop after its first start, and with the default admin logged in. *)
Definition demo_started : World := step (H := cpython) (Startup demo_env) demo_world.

Definition demo_admin_session : World :=
  step (H := cpython) (Serve route_admin_login demo_env demo_login) demo_started.

(** A start, a login and one invoice. *)
Definition demo_day : list operation :=
  [Startup demo_env;
   Serve route_admin_login demo_env demo_login;
   Serve route_create_invoice demo_env (demo_request "1" "10" "5" "2")].

(** A product form and a labor form. *)
Definition demo_product_form (price : string) : Request :=
  {| method := POST;
     form := list_to_map
       [("name", "Louvre"); ("price", price); ("category_id", "1")] |}.


(** An integer of 400 digits. *)
Definition huge_quantity : string :=
  String "1" (string_of_list_ascii (repeat "0"%char 399)).

Lemma cpython_hash_checks : hash_checks (H := cpython).
Proof.
  intros password. simpl. unfold CPython.check.
  rewrite String.eqb_refl. reflexivity.
Qed.

Lemma demo_keys_unique : keys_unique demo_database.
Proof.
  unfold keys_unique. simpl.
  split_and!; apply (bool_decide_unpack _); vm_compute; exact I.
Qed.

Lemma primary_keys_demo :
  keys_unique (database (steps (H := cpython) demo_day demo_world)).
Proof.
  apply (primary_keys_stay_unique (H := cpython) demo_day demo_world).
  exact demo_keys_unique.
Defined.


Lemma invoices_keep_their_product_demo :
  let w := steps (H := cpython) (demo_day ++ [EditProductPrice 1 (Float.of_Z 80)])
             demo_world in
  Forall (product_known (database w)) (invoices (database w)).
Proof.
  intros w.
  apply (invoices_keep_their_product (H := cpython)
           (demo_day ++ [EditProductPrice 1 (Float.of_Z 80)]) demo_world).
  simpl. constructor.
Defined.

Lemma init_writes_nothing_demo :
  let w := with_labor_costs demo_started [] in
  database (step (H := cpython) (Startup demo_env) w) = database w /\
  database (step (H := cpython) (CliCreateAdmin demo_env) w) = database w /\
  database (step (H := cpython) (Main demo_env) w) = database w.
Proof.
  intros w.
  apply (init_writes_nothing_when_admin_exists (H := cpython) demo_env w
           {| Admin.id := 1; Admin.username := "admin";
              Admin.password_hash := "scrypt$admin123" |}).
  vm_compute. reflexivity.
Defined.

Lemma init_creates_the_defaults_demo :
  database (step (H := cpython) (Startup demo_env) initial_world)
  = {| admins := [default_admin (H := cpython) []];
       categories := []; products := [];
       labor_costs := default_labor [];
       invoices := [] |}.
Proof.
  apply (init_creates_the_defaults (H := cpython) demo_env initial_world).
  - reflexivity.
  - split; reflexivity.
Defined.

Lemma default_admin_logs_in_demo :
  let w1 := step (H := cpython) (Startup demo_env) demo_world in
  handle (admin_login (H := cpython) demo_env demo_login) w1
  = (Ok (redirect url_admin_dashboard),
     {| database := database w1; flashed := flashed w1; logged_in := Some 1 |}).
Proof.
  apply (default_admin_logs_in (H := cpython) demo_env demo_env demo_login demo_world).
  - exact cpython_hash_checks.
  - reflexivity.
  - split; reflexivity.
  - reflexivity.
  - reflexivity.
  - reflexivity.
  - vm_compute. reflexivity.
  - vm_compute. reflexivity.
Defined.

Lemma login_needs_a_matching_admin_demo :
  method demo_login = POST /\
  exists admin,
    Admin.first_by_username (admins (database demo_started))
      (form demo_login !! "username") = Some admin /\
    Admin.id admin = 1 /\
    Admin.check_password (H := cpython) admin (form demo_login !! "password") = Ok true.
Proof.
  apply (login_needs_a_matching_admin (H := cpython) demo_env demo_login demo_started 1).
  - vm_compute. reflexivity.
  - vm_compute. reflexivity.
Defined.

Lemma writes_need_an_admin_demo :
  let request := {| method := POST; form := {[ "name" := "Doors" ]} |} in
  read_only route_add_category = false /\
  protected route_add_category = true /\
  exists i admin,
    logged_in demo_admin_session = Some i /\
    Admin.get (admins (database demo_admin_session)) i = Some admin.
Proof.
  intros request.
  apply (writes_need_an_admin (H := cpython) route_add_category demo_env request
           demo_admin_session).
  vm_compute. intros Heq. discriminate Heq.
Defined.

Lemma add_category_blank_demo :
  handle (view_function (H := cpython) route_add_category
            {| utcnow := 0; query_ok := true; commit_ok := false;
               refresh_ok := true |}
            {| method := POST; form := {[ "name" := "" ]} |}) demo_admin_session
  = (Ok (redirect url_admin_dashboard), demo_admin_session).
Proof.
  apply (add_category_ignores_blank_name (H := cpython)
           {| utcnow := 0; query_ok := true; commit_ok := false;
              refresh_ok := true |}
           {| method := POST; form := {[ "name" := "" ]} |} demo_admin_session 1
           {| Admin.id := 1; Admin.username := "admin";
              Admin.password_hash := "scrypt$admin123" |}).
  - vm_compute. reflexivity.
  - vm_compute. reflexivity.
  - reflexivity.
  - vm_compute. reflexivity.
Defined.

Lemma add_category_demo :
  categories (database (snd (handle
     (add_category demo_env {| method := POST; form := {[ "name" := "Doors" ]} |})
     demo_world)))
  = [{| Category.id := 1; Category.name := "Windows" |};
     {| Category.id := 2; Category.name := "Doors" |}].
Proof.
  rewrite (add_category_appends_one_row demo_env
             {| method := POST; form := {[ "name" := "Doors" ]} |}
             demo_world "Doors").
  - reflexivity.
  - vm_compute. reflexivity.
  - discriminate.
  - reflexivity.
Defined.

Lemma unguarded_writers_demo :
  snd (handle (add_product (H := cpython) demo_env (demo_product_form "cheap"))
         demo_world) = demo_world.
Proof.
  apply (proj1 (proj2 (unguarded_writers_fail_clean (H := cpython) demo_env
                         (demo_product_form "cheap") demo_world
                         (Exception ValueError
                            "could not convert string to float: 'cheap'")))).
  vm_compute. reflexivity.
Defined.



Lemma created_invoice_demo :
  let out := handle (create_invoice (H := cpython) demo_env
                       (demo_request "1" "10" "5" "2")) demo_world in
  exists inv,
    handle (view_invoice demo_env 1) (snd out)
      = (Ok (render_invoice_view inv (utcnow demo_env)), snd out) /\
    Invoice.id inv = 1 /\
    Invoice.created_at inv = utcnow demo_env /\
    invoices (database (snd out)) = invoices (database demo_world) ++ [inv].
Proof.
  intros out.
  apply (created_invoice_is_viewable (H := cpython) demo_env
           (demo_request "1" "10" "5" "2") demo_world 1 (snd out) demo_env).
  - vm_compute. reflexivity.
  - reflexivity.
Defined.

Lemma view_invoice_404_demo :
  (exists inv,
     handle (view_invoice demo_env 7) demo_world
       = (Ok (render_invoice_view inv (utcnow demo_env)), demo_world) /\
     In inv (invoices (database demo_world)) /\ Invoice.id inv = 7)
  \/
  (handle (view_invoice demo_env 7) demo_world
     = (Raise (Exception NotFound "404 Not Found"), demo_world) /\
   forall inv, In inv (invoices (database demo_world)) -> Invoice.id inv <> 7).
Proof.
  apply (view_invoice_renders_or_404 demo_env 7 demo_world). reflexivity.
Defined.

Lemma newest_invoice_demo :
  let earlier :=
    {| utcnow := 100; query_ok := true; commit_ok := true; refresh_ok := true |} in
  let w := snd (handle (create_invoice (H := cpython) earlier
                          (demo_request "1" "3" "4" "1")) demo_world) in
  let out := handle (create_invoice (H := cpython) demo_env
                       (demo_request "1" "10" "5" "2")) w in
  exists categories products labor_cost inv rest,
    handle (admin_dashboard demo_env) (snd out)
      = (Ok (render_dashboard categories products labor_cost (inv :: rest)), snd out) /\
    Invoice.id inv = 2 /\
    Invoice.created_at inv = utcnow demo_env.
Proof.
  intros earlier w out.
  apply (newest_invoice_heads_the_listing (H := cpython) demo_env
           (demo_request "1" "10" "5" "2") w 2 (snd out) demo_env).
  - vm_compute. reflexivity.
  - apply (bool_decide_unpack _). vm_compute. exact I.
  - reflexivity.
Defined.

Lemma missing_customer_field_demo :
  failed demo_world
    (handle (create_invoice (H := cpython) demo_env
               {| method := POST;
                  form := list_to_map
                    [("product_id", "1"); ("customer_phone", "555-0100");
                     ("customer_address", "12 Mill Road");
                     ("height", "10"); ("width", "5"); ("quantity", "2")] |})
       demo_world).
Proof.
  apply (missing_customer_field_no_write (H := cpython)).
  left. vm_compute. reflexivity.
Defined.

Lemma quantity_beyond_float_demo :
  failed demo_world
    (handle (create_invoice (H := cpython) demo_env
               (demo_request "1" "10" "5" huge_quantity)) demo_world).
Proof.
  apply (quantity_beyond_float_no_write (H := cpython) demo_env
           (demo_request "1" "10" "5" huge_quantity) demo_world (10 ^ 399)
           (Exception OverflowError "int too large to convert to float")).
  - vm_compute. reflexivity.
  - vm_compute. reflexivity.
Defined.
